(** * Real_Estate_Analysis: the listing scraper of [web_scraper.py]

    A shallow embedding of [src/real_estate_analysis/web_scraper.py]:
    [URLFetcher.fetch_page_urls], [HouseURLExtractor.extract_house_urls],
    [HouseDataExtractor.extract_house_details] and
    [HouseDataExtractor.scrape_and_save_property_details].

    Conventions of the embedding.
    - Python [str] is [string]; the model covers ASCII text.
    - A Python computation that may raise is a value of [Py.result]; a
      [try: ... except: x = np.nan] block is [Py.try_except].
    - A [dict] is an association list kept in insertion order, with Python's
      assignment semantics ([Py.dict_set]).
    - A parsed page (a BeautifulSoup object) is a tree of [Soup.node]s; the
      queries are those of bs4 on such a tree.
    - [float(s)] accepts what Python's grammar accepts; the value is kept as
      the literal.
    - The network is a function from the request number and the URL to the
      outcome of [fetch_house_doc]; the destination file is a field of the
      run state, and each [to_csv] call succeeds or raises as a disk oracle
      says. [DataFrame.append] is the pandas 1.x method that adds a row;
      [time.sleep] changes nothing that is modelled. *)

From Stdlib Require Import String Ascii List ZArith Lia Bool.
Import ListNotations.

Open Scope string_scope.
Open Scope Z_scope.

(* ====================================================================== *)
(** ** Python values, exceptions and built-ins used by the scraper *)
(* ====================================================================== *)

Module Py.

(** The exceptions the scraper can meet. All of them derive from
    [Exception], so [except:] and [except Exception] catch each one. *)
Inductive exn : Type :=
| AttributeError      (* [None.text], [None.get] *)
| IndexError          (* list index out of range *)
| ValueError          (* [int] / [float] on a malformed literal *)
| TypeError           (* [str + None], [x in nan] *)
| UnboundLocalError   (* a local read before any assignment *)
| ZeroDivisionError   (* [i % 0] *)
| KeyError            (* [tag[k]] for an absent attribute *)
| URLError            (* [urlopen] failed *)
| OSError.            (* [to_csv] could not write *)

Inductive result (A : Type) : Type :=
| Ok (a : A)
| Raise (e : exn).
Arguments Ok {A} a.
Arguments Raise {A} e.

Definition bind {A B : Type} (m : result A) (k : A -> result B) : result B :=
  match m with
  | Ok a => k a
  | Raise e => Raise e
  end.

Definition is_ok {A : Type} (m : result A) : bool :=
  match m with Ok _ => true | Raise _ => false end.

(** [try: x = m  except: x = d] *)
Definition try_except {A : Type} (m : result A) (d : A) : A :=
  match m with
  | Ok a => a
  | Raise _ => d
  end.

(** [o.attr] where [o] may be [None]. *)
Definition not_none {A : Type} (o : option A) : result A :=
  match o with
  | Some a => Ok a
  | None => Raise AttributeError
  end.

(** *** Sequences *)

(** [l[i]] with Python's negative indices. *)
Definition getitem {A : Type} (l : list A) (i : Z) : result A :=
  let n := Z.of_nat (length l) in
  let j := if i <? 0 then i + n else i in
  if (j <? 0) || (n <=? j) then Raise IndexError
  else match nth_error l (Z.to_nat j) with
       | Some a => Ok a
       | None => Raise IndexError
       end.

(** [for x in l: s = body(s, x)], left as soon as the body raises. *)
Fixpoint for_each {A S : Type} (l : list A) (body : S -> A -> result S) (s : S)
  : result S :=
  match l with
  | [] => Ok s
  | x :: l' =>
      match body s x with
      | Ok s' => for_each l' body s'
      | Raise e => Raise e
      end
  end.

(** [any(p(x) for x in l)] *)
Definition any {A : Type} (p : A -> bool) (l : list A) : bool := existsb p l.

(** [zip(xs, ys)] stops at the shorter argument. *)
Fixpoint zip {A B : Type} (xs : list A) (ys : list B) : list (A * B) :=
  match xs, ys with
  | x :: xs', y :: ys' => (x, y) :: zip xs' ys'
  | _, _ => []
  end.

(** *** Dictionaries, in insertion order *)

Definition dict (V : Type) : Type := list (string * V).

Fixpoint dict_get {V : Type} (d : dict V) (k : string) : option V :=
  match d with
  | [] => None
  | (k', v) :: d' => if String.eqb k' k then Some v else dict_get d' k
  end.

(** [d[k] = v]: an existing key keeps its place and takes the new value, a
    new key goes to the end. *)
Fixpoint dict_set {V : Type} (d : dict V) (k : string) (v : V) : dict V :=
  match d with
  | [] => [(k, v)]
  | (k', v') :: d' =>
      if String.eqb k' k then (k', v) :: d' else (k', v') :: dict_set d' k v
  end.

(** [dict(pairs)] and [d.update(e)]: the pairs are assigned left to right. *)
Definition dict_update {V : Type} (d : dict V) (e : list (string * V)) : dict V :=
  fold_left (fun acc kv => dict_set acc (fst kv) (snd kv)) e d.

Definition dict_of_pairs {V : Type} (e : list (string * V)) : dict V :=
  dict_update [] e.

Definition dict_keys {V : Type} (d : dict V) : list string := map fst d.

(** *** Strings *)

(** ASCII members of [str.isspace]: TAB, LF, VT, FF, CR, FS, GS, RS, US and
    the space. *)
Definition is_space (c : ascii) : bool :=
  let n := nat_of_ascii c in
  ((9 <=? n) && (n <=? 13) || (28 <=? n) && (n <=? 32))%nat.

Definition is_digit (c : ascii) : bool :=
  let n := nat_of_ascii c in ((48 <=? n) && (n <=? 57))%nat.

Definition digit_val (c : ascii) : Z := Z.of_nat (nat_of_ascii c) - 48.

(** [s.split(c)] for a one-character separator: never empty, and empty
    pieces are kept. *)
Fixpoint split_char (c : ascii) (s : string) : list string :=
  match s with
  | EmptyString => [EmptyString]
  | String a r =>
      if Ascii.eqb a c then EmptyString :: split_char c r
      else match split_char c r with
           | h :: t => String a h :: t
           | [] => [String a EmptyString]
           end
  end.

Definition cons_word (w : string) (ws : list string) : list string :=
  match w with
  | EmptyString => ws
  | _ => w :: ws
  end.

(** The word that starts at the head of [s] (empty when [s] starts with
    white space) and the words after it. *)
Fixpoint scan_words (s : string) : string * list string :=
  match s with
  | EmptyString => (EmptyString, [])
  | String a r =>
      let (w, ws) := scan_words r in
      if is_space a then (EmptyString, cons_word w ws) else (String a w, ws)
  end.

(** [s.split()]: runs of white space separate, no empty piece. *)
Definition split_ws (s : string) : list string :=
  let (w, ws) := scan_words s in cons_word w ws.

(** [s.replace(c, "")] for a one-character [c]. *)
Fixpoint remove_char (c : ascii) (s : string) : string :=
  match s with
  | EmptyString => EmptyString
  | String a r =>
      if Ascii.eqb a c then remove_char c r else String a (remove_char c r)
  end.

Fixpoint mem_char (c : ascii) (chars : string) : bool :=
  match chars with
  | EmptyString => false
  | String a r => Ascii.eqb a c || mem_char c r
  end.

Fixpoint lstrip_by (p : ascii -> bool) (s : string) : string :=
  match s with
  | EmptyString => EmptyString
  | String a r => if p a then lstrip_by p r else s
  end.

Fixpoint rstrip_by (p : ascii -> bool) (s : string) : string :=
  match s with
  | EmptyString => EmptyString
  | String a r =>
      match rstrip_by p r with
      | EmptyString => if p a then EmptyString else String a EmptyString
      | r' => String a r'
      end
  end.

Definition strip_by (p : ascii -> bool) (s : string) : string :=
  rstrip_by p (lstrip_by p s).

(** [s.strip(chars)] removes, at both ends, the characters of [chars]. *)
Definition strip_chars (chars : string) (s : string) : string :=
  strip_by (fun c => mem_char c chars) s.

(** The white space that [int] and [float] skip around a literal: TAB,
    LF, VT, FF, CR and the space. *)
Definition is_literal_space (c : ascii) : bool :=
  let n := nat_of_ascii c in
  ((9 <=? n) && (n <=? 13) || (n =? 32))%nat.

Definition strip_literal (s : string) : string := strip_by is_literal_space s.

(** [s[1:]] *)
Definition drop_first (s : string) : string :=
  match s with
  | EmptyString => EmptyString
  | String _ r => r
  end.

(** [s.startswith(p)] *)
Definition startswith (s p : string) : bool := String.prefix p s.

(** [sub in s] *)
Fixpoint contains (sub s : string) : bool :=
  String.prefix sub s ||
  match s with
  | EmptyString => false
  | String _ r => contains sub r
  end.

(** *** [int(s)]

    Surrounding white space, an optional sign, then decimal digits in which
    single underscores may separate digits. *)

(** Reads a maximal [digit (["_"] digit)*] from the head: the digits read,
    most significant first, and the rest. *)
Fixpoint take_digitpart_from (cs : list ascii) : list ascii * list ascii :=
  match cs with
  | c :: r =>
      if is_digit c then
        let (ds, rest) := take_digitpart_from r in (c :: ds, rest)
      else if Ascii.eqb c "_" then
        match r with
        | d :: r' =>
            if is_digit d then
              let (ds, rest) := take_digitpart_from r' in (d :: ds, rest)
            else ([], cs)
        | [] => ([], cs)
        end
      else ([], cs)
  | [] => ([], [])
  end.

(** A digit part must start with a digit. *)
Definition take_digitpart (cs : list ascii) : option (list ascii * list ascii) :=
  match cs with
  | c :: r =>
      if is_digit c then
        let (ds, rest) := take_digitpart_from r in Some (c :: ds, rest)
      else None
  | [] => None
  end.

Definition digits_value (ds : list ascii) : Z :=
  fold_left (fun acc d => 10 * acc + digit_val d) ds 0.

Definition take_sign (cs : list ascii) : bool * list ascii :=
  match cs with
  | c :: r =>
      if Ascii.eqb c "-" then (true, r)
      else if Ascii.eqb c "+" then (false, r)
      else (false, cs)
  | [] => (false, [])
  end.

Definition int_of_str (s : string) : result Z :=
  let (neg, cs) := take_sign (list_ascii_of_string (strip_literal s)) in
  match take_digitpart cs with
  | Some (ds, []) => Ok (if neg then - digits_value ds else digits_value ds)
  | _ => Raise ValueError
  end.

(** *** [float(s)]

    The literal is checked against Python's grammar
    [[sign] (number [exponent] | "inf" | "infinity" | "nan")]; the value is
    kept as the stripped literal, binary rounding is not modelled. *)

Definition lower (c : ascii) : ascii :=
  let n := nat_of_ascii c in
  if ((65 <=? n) && (n <=? 90))%nat then ascii_of_nat (n + 32) else c.

Definition lower_str (s : string) : string :=
  string_of_list_ascii (map lower (list_ascii_of_string s)).

(** [exponent ::= ("e" | "E") [sign] digitpart], to the end of the text. *)
Definition is_exponent_tail (cs : list ascii) : bool :=
  match cs with
  | [] => true
  | c :: r =>
      if Ascii.eqb (lower c) "e" then
        match take_digitpart (snd (take_sign r)) with
        | Some (_, []) => true
        | _ => false
        end
      else false
  end.

(** [number ::= digitpart ["." [digitpart]] | "." digitpart], followed by an
    optional exponent. *)
Definition is_float_number (cs : list ascii) : bool :=
  match take_digitpart cs with
  | Some (_, rest) =>
      match rest with
      | c :: r =>
          if Ascii.eqb c "." then
            match take_digitpart r with
            | Some (_, rest') => is_exponent_tail rest'
            | None => is_exponent_tail r
            end
          else is_exponent_tail rest
      | [] => true
      end
  | None =>
      match cs with
      | c :: r =>
          if Ascii.eqb c "." then
            match take_digitpart r with
            | Some (_, rest') => is_exponent_tail rest'
            | None => false
            end
          else false
      | [] => false
      end
  end.

Definition is_float_literal (s : string) : bool :=
  let cs := snd (take_sign (list_ascii_of_string s)) in
  let w := lower_str (string_of_list_ascii cs) in
  String.eqb w "inf" || String.eqb w "infinity" || String.eqb w "nan"
  || is_float_number cs.

Definition float_of_str (s : string) : result string :=
  let t := strip_literal s in
  if is_float_literal t then Ok t else Raise ValueError.

End Py.

Notation "x <- m ;; k" := (Py.bind m (fun x => k))
  (at level 61, m at next level, right associativity).

(* ====================================================================== *)
(** ** Parsed pages: the queries of BeautifulSoup the scraper uses *)
(* ====================================================================== *)

Module Soup.
Import Py.

#[local] Set Warnings "-register-all".

(** A parsed page is a tree of tags and text. A tag has a name and its
    attribute dictionary, with each value as written in the markup. *)
Inductive node : Type :=
| Text (s : string)
| Tag (name : string) (attrs : list (string * string)) (children : list node).

(** [n.get_text()] and [n.text]: every piece of text below [n], in document
    order, joined without a separator. *)
Fixpoint get_text (n : node) : string :=
  match n with
  | Text s => s
  | Tag _ _ cs => String.concat EmptyString (map get_text cs)
  end.

(** Every tag strictly below [n], in document order. *)
Fixpoint descendants (n : node) : list node :=
  match n with
  | Text _ => []
  | Tag _ _ cs =>
      flat_map (fun c => match c with
                         | Text _ => []
                         | Tag _ _ _ => c :: descendants c
                         end) cs
  end.

Definition tag_name (n : node) : string :=
  match n with
  | Text _ => EmptyString
  | Tag nm _ _ => nm
  end.

(** [n.get(k)] *)
Definition get_attr (n : node) (k : string) : option string :=
  match n with
  | Text _ => None
  | Tag _ attrs _ => dict_get attrs k
  end.

(** One attribute filter of a query: [{"k": "v"}] or [k=True]. *)
Inductive attr_filter : Type :=
| AttrIs (k v : string)
| AttrPresent (k : string).

(** [class] is a multi-valued attribute: the parser stores its
    white-space-separated tokens, and a query string matches when it is one
    of the tokens or the tokens joined by single spaces. Every other
    attribute matches by equality of the whole value. *)
Definition attr_matches (n : node) (f : attr_filter) : bool :=
  match f with
  | AttrPresent k =>
      match get_attr n k with Some _ => true | None => false end
  | AttrIs k v =>
      match get_attr n k with
      | None => false
      | Some raw =>
          if String.eqb k "class" then
            let toks := split_ws raw in
            existsb (String.eqb v) toks
            || String.eqb v (String.concat " " toks)
          else String.eqb v raw
      end
  end.

Definition matches (name : string) (fs : list attr_filter) (n : node) : bool :=
  String.eqb (tag_name n) name && forallb (attr_matches n) fs.

(** [n.find_all(name, attrs)], also spelt [findAll] and [findChildren]. *)
Definition find_all (n : node) (name : string) (fs : list attr_filter)
  : list node :=
  filter (matches name fs) (descendants n).

(** [n.find(name, attrs)]: the first match, or [None]. *)
Definition find (n : node) (name : string) (fs : list attr_filter)
  : option node :=
  hd_error (find_all n name fs).

Definition cls (v : string) : list attr_filter := [AttrIs "class" v].

End Soup.

(* ====================================================================== *)
(** ** web_scraper.py *)
(* ====================================================================== *)

Module WebScraper.
Import Py Soup.

(** *** class URLFetcher *)

Definition base_url : string := "https://www.redfin.com".

(** [hrefs["href"]] *)
Definition tag_item (n : node) (k : string) : result string :=
  match get_attr n k with
  | Some v => Ok v
  | None => Raise KeyError
  end.

(** The anchors the loop of [fetch_page_urls] visits (lines 60-62). *)
Definition page_links (mainurldoc : node) : list node :=
  find_all mainurldoc "a" [AttrIs "class" "clickable goToPage"; AttrPresent "href"].

(** [URLFetcher.fetch_page_urls(main_url, house_doc_fetcher)]; the fetcher
    object is its [fetch_house_doc] method. *)
Definition fetch_page_urls (main_url : string)
    (fetch_house_doc : string -> result node) : result (list string) :=
  mainurldoc <- fetch_house_doc main_url ;;
  for_each (page_links mainurldoc)
    (fun url_list hrefs =>
       h <- tag_item hrefs "href" ;;
       let next_page := base_url ++ h in
       Ok (url_list ++ [next_page])%list)
    [main_url].

(** *** class HouseURLExtractor *)

(** Lines 90-92 of [extract_house_urls]: from the value of
    [div.a.get("href")] to [full_url]. *)
Definition resolve_href (href : option string) : result string :=
  let href :=
    match href with
    | Some h =>
        if negb (String.eqb h EmptyString) && startswith h "/"
        then Some (drop_first h)               (* Remove the leading slash *)
        else Some h
    | None => None
    end in
  match href with
  | Some h => Ok ("https://www.redfin.com/" ++ h)
  | None => Raise TypeError
  end.

(** The inner loop body: one listing card. *)
Definition card_url (div : node) : result string :=
  a <- not_none (find div "a" []) ;;
  resolve_href (get_attr a "href").

(** [HouseURLExtractor.extract_house_urls(url_list, house_doc_fetcher)];
    [fetch_house_doc n url] is the outcome of the [n]-th request. *)
Fixpoint extract_house_urls_from (n : nat) (url_list : list string)
    (fetch_house_doc : nat -> string -> result node)
    (house_urls : list string) : result (list string) :=
  match url_list with
  | [] => Ok house_urls
  | url :: rest =>
      doc <- fetch_house_doc n url ;;
      let divs := find_all doc "div" (cls "bottomV2") in
      house_urls <- for_each divs
        (fun house_urls div =>
           full_url <- card_url div ;;
           Ok (house_urls ++ [full_url])%list)
        house_urls ;;
      extract_house_urls_from (S n) rest fetch_house_doc house_urls
  end.

Definition extract_house_urls (url_list : list string)
    (fetch_house_doc : nat -> string -> result node) : result (list string) :=
  extract_house_urls_from 0 url_list fetch_house_doc [].

(** *** class HouseDataExtractor: [extract_house_details] *)

(** What a field of a listing record can hold. [VNan] is [np.nan], the
    marker of a missing value. A float is kept as its literal. The school
    ratings are a one-element list holding a dictionary. *)
Inductive value : Type :=
| VNan
| VStr (s : string)
| VInt (z : Z)
| VFloat (literal : string)
| VSchools (school_dict : dict string).

Definition record : Type := dict value.

Definition SuperCenters : list string :=
  ["Costco"; "Target"; "Walmart"; "Safeway"; "Lucky"; "FoodMaxx";
   "Trader Joe"; "Walgreens"].
Definition Major_Indian_Grocery : list string :=
  ["New India"; "Apna Bazaar"; "India Cash And Carry"; "Trinetra"; "Namaste";
   "Saudagar"; "Bharat"; "Nilgiris"].
Definition Major_Entertainment : list string := ["AMC"; "Cinemark"; "Theater"].
Definition Boba : list string := ["Bubble Tea"; "Boba"].
Definition Healthcare : list string :=
  ["Hospital"; "Clinic"; "Kaiser Permanante"; "United Health"; "Health"].

Definition newline : ascii := ascii_of_nat 10.

(** [n.text] for the outcome [n] of [find]. *)
Definition text_of (n : option node) : result string :=
  n <- not_none n ;; Ok (get_text n).

(** Lines 174-181: the key-detail table. No [try] surrounds the loop. *)
Definition key_detail_step (table_dict : record) (i : node) : result record :=
  s0 <- getitem (find_all i "span" []) 0 ;;
  let x := split_char newline (get_text s0) in
  s1 <- getitem (find_all i "span" []) 1 ;;
  let y := split_ws (get_text s1) in
  let z := zip x (map VStr y) in
  Ok (dict_update table_dict (dict_of_pairs z)).

Definition key_detail_table (doc : node) : result record :=
  for_each
    (find_all doc "div" (cls "keyDetail font-weight-roman font-size-base"))
    key_detail_step [].

(** Lines 183-186. *)
Definition price (doc : node) : value :=
  try_except
    (t <- text_of (find doc "div" (cls "statsValue")) ;;
     p <- getitem (split_char "$" t) 1 ;;
     Ok (VStr p))
    VNan.

(** Lines 187-192. *)
Definition Address (doc : node) : value :=
  try_except
    (t <- text_of
            (find doc "h1" [AttrIs "data-rf-test-id" "abp-homeinfo-homeaddress"]) ;;
     Ok (VStr t))
    VNan.

(** Lines 194-200. *)
Definition beds (doc : node) : value :=
  try_except
    (t <- text_of (find doc "div" [AttrIs "data-rf-test-id" "abp-beds"]) ;;
     bed_str <- getitem (split_char "B" t) 0 ;;
     z <- int_of_str bed_str ;;
     Ok (VInt z))
    VNan.

(** Lines 202-208. *)
Definition bath (doc : node) : value :=
  try_except
    (t <- text_of (find doc "div" [AttrIs "data-rf-test-id" "abp-baths"]) ;;
     str <- getitem (split_char "B" t) 0 ;;
     f <- float_of_str str ;;
     Ok (VFloat f))
    VNan.

(** Lines 210-218. *)
Definition living_sqft (doc : node) : value :=
  try_except
    (t <- text_of (find doc "div" [AttrIs "data-rf-test-id" "abp-sqFt"]) ;;
     s <- getitem (split_char "S" t) 0 ;;
     let sqft_str := remove_char "," s in
     f <- float_of_str sqft_str ;;
     Ok (VFloat f))
    VNan.

(** Lines 220-225. *)
Definition d_score (doc : node) : value :=
  try_except
    (t <- text_of (find doc "tspan" (cls "riskValue redOrange")) ;;
     z <- int_of_str t ;;
     Ok (VInt z))
    VNan.

(** Lines 227-237. *)
Definition nbd_homes (doc : node) : value :=
  try_except
    (t <- text_of
            (find doc "div" (cls "MarketInsightsRegionCard--cardMetrics row")) ;;
     w <- getitem (split_ws t) (-3) ;;
     z <- int_of_str (strip_chars "#" (strip_chars "Sale-to-List" w)) ;;
     Ok (VInt z))
    VNan.

(** Lines 239-246. *)
Definition wa_score (doc : node) : value :=
  try_except
    (n <- getitem (find_all doc "div" (cls "score inline-block not-last")) 0 ;;
     w <- getitem (split_char " " (get_text n)) 0 ;;
     z <- int_of_str w ;;
     Ok (VInt z))
    VNan.

(** Lines 247-252. *)
Definition trans_score (doc : node) : value :=
  try_except
    (n <- getitem (find_all doc "span" (cls "value fair")) 0 ;;
     z <- int_of_str (get_text n) ;;
     Ok (VInt z))
    VNan.

(** Lines 254-259: the five locals the loop over the point-of-interest
    widgets assigns. No [try] surrounds the loop, and nothing assigns the
    locals before it: after zero iterations they are unbound ([None]). *)
Record poi : Type := {
  groceries : Z;
  services : Z;
  emergency : Z;
  shopping : Z;
  food_drink : Z
}.

Definition tag_count (div : node) (i : Z) : result Z :=
  t <- getitem (find_all div "div" (cls "Tag__text")) i ;;
  int_of_str (get_text t).

Definition poi_step (_ : option poi) (div : node) : result (option poi) :=
  groceries <- tag_count div 1 ;;
  services <- tag_count div (-1) ;;
  emergency <- tag_count div (-2) ;;
  shopping <- tag_count div 4 ;;
  food_drink <- tag_count div 2 ;;
  Ok (Some {| groceries := groceries; services := services;
              emergency := emergency; shopping := shopping;
              food_drink := food_drink |}).

Definition poi_counts (doc : node) : result (option poi) :=
  for_each (find_all doc "div" (cls "PointOfInterestWidget")) poi_step None.

(** Reading one of these locals in the dictionary display of line 396. *)
Definition read_local (locals : option poi) (var : poi -> Z) : result value :=
  match locals with
  | Some p => Ok (VInt (var p))
  | None => Raise UnboundLocalError
  end.

(** Lines 262-267. *)
Definition Nearby_Items (doc : node) : value :=
  try_except
    (t <- text_of (find doc "div" (cls "PointOfInterestWidget")) ;; Ok (VStr t))
    VNan.

(** Lines 270-273. *)
Definition Competitive_Score (doc : node) : value :=
  try_except
    (t <- text_of (find doc "div" (cls "score most")) ;; Ok (VStr t))
    VNan.

(** Lines 277-289; the comprehension cannot raise. *)
Definition activity_lis (doc : node) : list string :=
  map get_text
    (find_all doc "span"
       [AttrIs "class" "count";
        AttrIs "data-rf-test-name" "activity-count-label"]).

(** Lines 291-304, for index 0, 1 and 2. *)
Definition activity_count (doc : node) (i : Z) : value :=
  try_except (s <- getitem (activity_lis doc) i ;; Ok (VStr s)) VNan.

(** Lines 306-321. *)
Definition name_lis (doc : node) : list string :=
  map get_text
    (find_all doc "div" (cls "school-name font-size-base font-weight-bold")).

Definition rating_lis (doc : node) : list string :=
  map get_text
    (find_all doc "span" (cls "rating-num font-size-base font-weight-bold")).

Definition school_dict (doc : node) : dict string :=
  fold_left (fun school_dict xy => dict_set school_dict (fst xy) (snd xy))
    (zip (name_lis doc) (rating_lis doc)) [].

(** [kw in Nearby_Items]: a [TypeError] when the right operand is the
    float [np.nan]. *)
Definition in_text (kw : string) (nearby : value) : result bool :=
  match nearby with
  | VStr s => Ok (contains kw s)
  | _ => Raise TypeError
  end.

(** [any(kw in Nearby_Items for kw in kws)]: stops at the first hit. *)
Fixpoint any_in_text (kws : list string) (nearby : value) : result bool :=
  match kws with
  | [] => Ok false
  | kw :: kws' =>
      b <- in_text kw nearby ;;
      if b then Ok true else any_in_text kws' nearby
  end.

(** Lines 323-394: [has_x = 0; try: if cond: has_x = 1; except: has_x = 0]. *)
Definition flag (cond : result bool) : value :=
  try_except (b <- cond ;; Ok (VInt (if b then 1 else 0))) (VInt 0).

(** Lines 396-426: the dictionary display [l]. Its values are evaluated in
    order; only the reads of the five loop locals can raise. *)
Definition named_fields (doc : node) (locals : option poi)
  : result (list (string * value)) :=
  let nearby := Nearby_Items doc in
  v_groceries <- read_local locals groceries ;;
  v_services <- read_local locals services ;;
  v_emergency <- read_local locals emergency ;;
  v_shopping <- read_local locals shopping ;;
  v_food_drink <- read_local locals food_drink ;;
  Ok [ ("List_price", price doc);
       ("Address", Address doc);
       ("Beds", beds doc);
       ("Baths", bath doc);
       ("Living_sqft", living_sqft doc);
       ("Drought_Score", d_score doc);
       ("Walk_score", wa_score doc);
       ("Neighbourhood_Homes", nbd_homes doc);
       ("Transit_score", trans_score doc);
       ("Groceries_stores", v_groceries);
       ("Services", v_services);
       ("Emergency", v_emergency);
       ("Shopping", v_shopping);
       ("Food_and_Drink", v_food_drink);
       ("Schools", VSchools (school_dict doc));
       ("Competitive_Score", Competitive_Score doc);
       ("page_view_count", activity_count doc 0);
       ("page_fav_count_30", activity_count doc 1);
       ("page_fav_all_time_count", activity_count doc 2);
       ("has_supercenter", flag (any_in_text SuperCenters nearby));
       ("has_major_indian_grocery",
         flag (any_in_text Major_Indian_Grocery nearby));
       ("has_major_entertainment",
         flag (any_in_text Major_Entertainment nearby));
       ("has_indian_restaurant", flag (in_text "Indian Restaurant" nearby));
       ("has_chinese_restaurant", flag (in_text "Chinese Restaurant" nearby));
       ("has_mexican_restaurant", flag (in_text "Mexican Restaurant" nearby));
       ("has_boba", flag (any_in_text Boba nearby));
       ("has_starbucks", flag (in_text "Starbucks" nearby));
       ("has_healthcare_support", flag (any_in_text Healthcare nearby));
       ("has_mall", flag (in_text "Mall" nearby)) ].

(** The keys of [l]. *)
Definition named_keys : list string :=
  ["List_price"; "Address"; "Beds"; "Baths"; "Living_sqft"; "Drought_Score";
   "Walk_score"; "Neighbourhood_Homes"; "Transit_score"; "Groceries_stores";
   "Services"; "Emergency"; "Shopping"; "Food_and_Drink"; "Schools";
   "Competitive_Score"; "page_view_count"; "page_fav_count_30";
   "page_fav_all_time_count"; "has_supercenter"; "has_major_indian_grocery";
   "has_major_entertainment"; "has_indian_restaurant";
   "has_chinese_restaurant"; "has_mexican_restaurant"; "has_boba";
   "has_starbucks"; "has_healthcare_support"; "has_mall"].

(** [HouseDataExtractor.extract_house_details(doc)] *)
Definition extract_house_details (doc : node) : result record :=
  table_dict <- key_detail_table doc ;;
  locals <- poi_counts doc ;;
  l <- named_fields doc locals ;;
  Ok (dict_update table_dict l).

(** *** class HouseDataExtractor: [scrape_and_save_property_details] *)

(** The table [details_df] is the list of its rows; [to_csv] writes the
    whole table, so the content of the destination is a table too. *)
Definition table : Type := list record.

(** The state of a run: the accumulated table, what the destination file
    holds ([None]: nothing written yet), and how many [to_csv] calls were
    made. *)
Record run_state : Type := {
  details_df : table;
  csv_file : option table;
  writes : nat
}.

(** [i % batch_size] on Python integers: the sign follows the divisor. *)
Definition py_mod (i batch_size : Z) : result Z :=
  if batch_size =? 0 then Raise ZeroDivisionError else Ok (i mod batch_size).

Section Run.

(** [net i url]: what fetching [url] yields in iteration [i].
    [disk n]: whether the [n]-th [to_csv] call of the run succeeds. *)
Variable net : nat -> string -> result node.
Variable disk : nat -> bool.

(** [details_df.to_csv(filename, index=False)]: replaces the file by the
    whole table, or raises; a call that raises is taken to leave the file
    as it was. *)
Definition to_csv (st : run_state) : run_state * result unit :=
  if disk (writes st)
  then ({| details_df := details_df st;
           csv_file := Some (details_df st);
           writes := S (writes st) |}, Ok tt)
  else ({| details_df := details_df st;
           csv_file := csv_file st;
           writes := S (writes st) |}, Raise OSError).

(** Lines 118-119. *)
Definition process (i : nat) (url : string) : result record :=
  house_doc <- net i url ;;
  extract_house_details house_doc.

(** [details_df = details_df.append(house_dict, ignore_index=True)] *)
Definition append_row (st : run_state) (house_dict : record) : run_state :=
  {| details_df := (details_df st ++ [house_dict])%list;
     csv_file := csv_file st;
     writes := writes st |}.

(** Lines 117-129: one iteration. Whatever the [try] block raises is
    dropped by [except Exception: pass]; what was assigned before the
    exception stays. *)
Definition loop_body (batch_size : Z) (st : run_state) (i : nat) (url : string)
  : run_state :=
  match process i url with
  | Raise _ => st
  | Ok house_dict =>
      let st := append_row st house_dict in
      match py_mod (Z.of_nat i) batch_size with
      | Raise _ => st
      | Ok r => if r =? 0 then fst (to_csv st) else st
      end
  end.

(** [for i, url in enumerate(url_list)], entered at index [i]. *)
Fixpoint run_loop (batch_size : Z) (i : nat) (url_list : list string)
    (st : run_state) : run_state :=
  match url_list with
  | [] => st
  | url :: rest => run_loop batch_size (S i) rest (loop_body batch_size st i url)
  end.

Definition init_state (file0 : option table) : run_state :=
  {| details_df := []; csv_file := file0; writes := 0 |}.

(** [scrape_and_save_property_details(url_list, filename, batch_size)]:
    the state at the end, and the table returned or the exception of the
    last [to_csv]. [file0] is what [filename] held before the run. *)
Definition scrape_and_save_property_details (url_list : list string)
    (file0 : option table) (batch_size : Z) : run_state * result table :=
  let st := run_loop batch_size 0 url_list (init_state file0) in
  let (st', r) := to_csv st in
  (st', _ <- r ;; Ok (details_df st')).

(** The state once the first [n] listings have been processed. *)
Definition state_after (n : nat) (url_list : list string)
    (file0 : option table) (batch_size : Z) : run_state :=
  run_loop batch_size 0 (firstn n url_list) (init_state file0).

(** The records of the listings, from index [i] on, whose fetch and
    extraction both succeed. *)
Fixpoint successes (i : nat) (url_list : list string) : table :=
  match url_list with
  | [] => []
  | url :: rest =>
      match process i url with
      | Ok house_dict => house_dict :: successes (S i) rest
      | Raise _ => successes (S i) rest
      end
  end.

End Run.

End WebScraper.

(* ====================================================================== *)
(** ** Vocabulary of the statements *)
(* ====================================================================== *)

Module Spec.
Import Py Soup WebScraper.

(** The [href] of an anchor, empty when it has none. *)
Definition href_of (a : node) : string :=
  match get_attr a "href" with
  | Some h => h
  | None => EmptyString
  end.

(** "Strip one leading slash if present", in the words of the
    specification of the listing-URL extractor. *)
Definition strip_leading_slash (href : string) : string :=
  match href with
  | String c rest => if Ascii.eqb c "/" then rest else href
  | EmptyString => href
  end.

(** "Then prepend origin + slash". *)
Definition resolve_against (origin href : string) : string :=
  origin ++ "/" ++ strip_leading_slash href.

(** No string occurs twice. *)
Fixpoint distinct (l : list string) : bool :=
  match l with
  | [] => true
  | k :: l' => negb (existsb (String.eqb k) l') && distinct l'
  end.

(** How many rows the destination holds once [n >= 1] listings have been
    processed without any failure: the last index that is a multiple of
    [batch_size], plus one. *)
Definition checkpoint_rows (batch_size : Z) (n : nat) : nat :=
  Z.to_nat ((Z.of_nat n - 1) / batch_size * batch_size + 1).

(** The widget has fewer than five tag texts. *)
Definition short_widget (div : node) : Prop :=
  (length (find_all div "div" (cls "Tag__text")) < 5)%nat.

(** The listing cards of a result page, as [extract_house_urls] finds
    them. *)
Definition page_cards (doc : node) : list node :=
  find_all doc "div" (cls "bottomV2").

(** A card whose first anchor carries an [href]. *)
Definition card_has_href (div : node) : Prop :=
  exists a h, find div "a" [] = Some a /\ get_attr a "href" = Some h.

(** The absolute URL a card stands for. *)
Definition card_target (div : node) : string :=
  match find div "a" [] with
  | Some a => resolve_against base_url (href_of a)
  | None => EmptyString
  end.

Definition page_targets (doc : node) : list string :=
  map card_target (page_cards doc).

(** The value of a flag. *)
Definition flag_value (b : bool) : value := VInt (if b then 1 else 0).

(** Some keyword of [kws] occurs in [text]. *)
Definition mentions (kws : list string) (text : string) : bool :=
  existsb (fun kw => contains kw text) kws.

(** [l1] is an initial segment of [l2]. *)
Definition prefix_of {A : Type} (l1 l2 : list A) : Prop :=
  exists rest, l2 = (l1 ++ rest)%list.

(** The number of batches that [n] listings start: [n / b] rounded up. *)
Definition batches_started (batch_size : Z) (n : nat) : Z :=
  (Z.of_nat n + batch_size - 1) / batch_size.

(** What the file can hold during a run: its content from before the
    run, or at least one row from the front of the table. *)
Definition file_behind_table (file0 : option table) (st : run_state) : Prop :=
  csv_file st = file0
  \/ exists k, (1 <= k <= length (details_df st))%nat
               /\ csv_file st = Some (firstn k (details_df st)).

(** The keys of [e] that [d] does not have. *)
Definition new_keys (d : list string) (e : list string) : list string :=
  filter (fun k => negb (existsb (String.eqb k) d)) e.

End Spec.

(* ====================================================================== *)
(** ** Sample pages *)
(* ====================================================================== *)

Module Samples.
Import Py Soup WebScraper.

Definition page (children : list node) : node := Tag "[document]" [] children.

Definition el (name class : string) (children : list node) : node :=
  Tag name [("class", class)] children.

Definition el_id (name test_id : string) (children : list node) : node :=
  Tag name [("data-rf-test-id", test_id)] children.

Definition tag_text (s : string) : node := el "div" "Tag__text" [Text s].

(** A point-of-interest widget with seven tag texts. *)
Definition poi_widget : node :=
  el "div" "PointOfInterestWidget"
    [ Text "Costco Supercenter, Starbucks, AMC Theater";
      tag_text "0"; tag_text "12"; tag_text "7"; tag_text "4";
      tag_text "5"; tag_text "3"; tag_text "9" ].

(** A widget with too few tag texts for index 4. *)
Definition short_poi_widget : node :=
  el "div" "PointOfInterestWidget"
    [ tag_text "0"; tag_text "12"; tag_text "7" ].

Definition stats_value : node := el "div" "statsValue" [Text "$1,234,567 Est."].

Definition key_detail (label val : string) : node :=
  el "div" "keyDetail font-weight-roman font-size-base"
    [ Tag "span" [] [Text label]; Tag "span" [] [Text val] ].

Definition school (name rating : string) : list node :=
  [ el "div" "school-name font-size-base font-weight-bold" [Text name];
    el "span" "rating-num font-size-base font-weight-bold" [Text rating] ].

(** A listing page with every widget the extractor looks for. *)
Definition listing : node :=
  page
    ([ stats_value;
       el_id "h1" "abp-homeinfo-homeaddress" [Text "1 Main St"];
       el_id "div" "abp-beds" [Text "3Beds"];
       el_id "div" "abp-baths" [Text "2.5Baths"];
       el_id "div" "abp-sqFt" [Text "1,850Sq Ft"];
       key_detail "Beds" "four";
       key_detail "Status" "Active";
       poi_widget ]
     ++ school "Lincoln High" "8" ++ school "Park Elementary" "6"
     ++ [ el "div" "school-name font-size-base font-weight-bold"
            [Text "Surplus Middle"] ])%list.

(** The record the extractor returns for [listing]. *)
Definition listing_record : record :=
  Eval vm_compute in try_except (extract_house_details listing) [].

(** The same page without the point-of-interest widget. *)
Definition listing_without_poi : node :=
  page
    [ stats_value;
      el_id "h1" "abp-homeinfo-homeaddress" [Text "1 Main St"];
      el_id "div" "abp-beds" [Text "3Beds"] ].

Definition listing_short_poi : node := page [stats_value; short_poi_widget].

(** A minimal page that extracts: only the widget. *)
Definition small_listing (addr : string) : node :=
  page [el_id "h1" "abp-homeinfo-homeaddress" [Text addr]; poi_widget].

(** The records of two minimal pages. *)
Definition record_a : record :=
  Eval vm_compute in try_except (extract_house_details (small_listing "a")) [].

Definition record_b : record :=
  Eval vm_compute in try_except (extract_house_details (small_listing "b")) [].

(** A network on which every fetch succeeds, one on which the URL
    ["bad"] cannot be fetched, and one that serves a page without the
    widget for ["nopoi"]. *)
Definition net_ok (_ : nat) (url : string) : result node :=
  Ok (small_listing url).

Definition net_flaky (_ : nat) (url : string) : result node :=
  if String.eqb url "bad" then Raise URLError
  else if String.eqb url "nopoi" then Ok listing_without_poi
  else Ok (small_listing url).

(** A disk on which every write succeeds, and one on which only the
    first write fails. *)
Definition disk_ok (_ : nat) : bool := true.

Definition disk_first_fails (n : nat) : bool := negb (Nat.eqb n 0).

(** A search page: two pagination anchors around a listing card. *)
Definition go_to_page (href : string) : node :=
  Tag "a" [("class", "clickable goToPage"); ("href", href)] [Text "next"].

Definition card (href : string) : node :=
  el "div" "bottomV2" [Tag "a" [("href", href)] [Text "home"]].

Definition search_page : node :=
  page [ go_to_page "/city/1/page-2";
         el "div" "cards" [card "/property/123"; card "CA/home/7"];
         go_to_page "/city/1/page-3" ].

Definition search_page_single : node :=
  page [ el "div" "cards" [card "/property/123"] ].

(** A card without an anchor, and a result page that holds it. *)
Definition card_without_anchor : node := el "div" "bottomV2" [Text "sold"].

Definition broken_search_page : node :=
  page [card "/property/1"; card_without_anchor].

(** Result pages by URL: ["p1"] and ["p2"] are well formed, ["broken"] has
    a card without an anchor, anything else cannot be fetched. *)
Definition site (_ : nat) (url : string) : result node :=
  if String.eqb url "p1" then Ok search_page
  else if String.eqb url "p2" then Ok search_page_single
  else if String.eqb url "broken" then Ok broken_search_page
  else Raise URLError.

(** A result page with a single pagination anchor. *)
Definition one_link_page (href : string) : node := page [go_to_page href].

(** A page with two activity counters. *)
Definition activity_counter (s : string) : node :=
  Tag "span" [("class", "count"); ("data-rf-test-name", "activity-count-label")]
      [Text s].

Definition activity_page : node :=
  page [activity_counter "1,024"; activity_counter "17"; poi_widget].

(** A page with two point-of-interest widgets. *)
Definition second_widget : node :=
  el "div" "PointOfInterestWidget"
    [ Text "Mall";
      tag_text "1"; tag_text "2"; tag_text "3"; tag_text "4"; tag_text "5" ].

Definition two_widgets : node := page [poi_widget; second_widget].

(** A page whose key-detail entry has one span only. *)
Definition listing_bad_key_detail : node :=
  page [ el "div" "keyDetail font-weight-roman font-size-base"
           [Tag "span" [] [Text "Status"]];
         poi_widget ].

(** A key-detail entry whose value has two words. *)
Definition key_detail_two_words : node := key_detail "Style" "Single Family".

End Samples.

(* ====================================================================== *)
(** ** Lemmas on the Python built-ins *)
(* ====================================================================== *)

Import Py Soup WebScraper Spec.

Lemma bind_ok {A B : Type} (m : result A) (k : A -> result B) (b : B) :
  bind m k = Ok b -> exists a, m = Ok a /\ k a = Ok b.
Proof.
  destruct m as [a|e]; simpl; intros H.
  - exists a. split; [reflexivity | exact H].
  - discriminate H.
Qed.

Lemma for_each_app {A S : Type} (body : S -> A -> result S) (l1 l2 : list A) (s : S) :
  for_each (l1 ++ l2) body s = (s' <- for_each l1 body s ;; for_each l2 body s').
Proof.
  revert s. induction l1 as [|x l1 IH]; intros s; simpl.
  - reflexivity.
  - destruct (body s x) as [s'|e]; simpl; [apply IH | reflexivity].
Qed.

(** A loop whose body raises on one of the elements raises. *)
Lemma for_each_raises {A S : Type} (body : S -> A -> result S) (l : list A) (x : A) :
  In x l ->
  (forall s, exists e, body s x = Raise e) ->
  forall s, exists e, for_each l body s = Raise e.
Proof.
  intros Hin Hx. induction l as [|y l IH]; intros s.
  - destruct Hin.
  - simpl. destruct Hin as [-> | Hin].
    + destruct (Hx s) as [e He]. rewrite He. exists e. reflexivity.
    + destruct (body s y) as [s'|e].
      * apply IH, Hin.
      * exists e. reflexivity.
Qed.

Lemma getitem_short {A : Type} (l : list A) (i : Z) :
  0 <= i -> Z.of_nat (length l) <= i -> getitem l i = Raise IndexError.
Proof.
  intros H0 Hn. unfold getitem.
  destruct (i <? 0) eqn:Hneg; [apply Z.ltb_lt in Hneg; lia|].
  assert (Hle : (Z.of_nat (length l) <=? i) = true) by (apply Z.leb_le; exact Hn).
  rewrite Hle, orb_true_r. reflexivity.
Qed.

Lemma getitem_nonneg {A : Type} (l : list A) (i : nat) (a : A) :
  nth_error l i = Some a -> getitem l (Z.of_nat i) = Ok a.
Proof.
  intros H. unfold getitem.
  assert (Hlt : (i < length l)%nat) by (apply nth_error_Some; congruence).
  destruct (Z.of_nat i <? 0) eqn:Hneg; [apply Z.ltb_lt in Hneg; lia|].
  destruct (Z.of_nat i <? 0) eqn:E1; [discriminate|].
  destruct (Z.of_nat (length l) <=? Z.of_nat i) eqn:E2;
    [apply Z.leb_le in E2; lia|].
  simpl. rewrite Nat2Z.id, H. reflexivity.
Qed.

(** *** Dictionaries *)

Lemma dict_get_set_eq {V : Type} (d : dict V) (k : string) (v : V) :
  dict_get (dict_set d k v) k = Some v.
Proof.
  induction d as [|[k' v'] d IH]; simpl.
  - rewrite String.eqb_refl. reflexivity.
  - destruct (String.eqb k' k) eqn:E; simpl; rewrite E; [reflexivity | exact IH].
Qed.

Lemma dict_get_set_ne {V : Type} (d : dict V) (k k' : string) (v : V) :
  k <> k' -> dict_get (dict_set d k v) k' = dict_get d k'.
Proof.
  intros Hne. induction d as [|[k0 v0] d IH]; simpl.
  - destruct (String.eqb k k') eqn:E; [apply String.eqb_eq in E; contradiction | reflexivity].
  - destruct (String.eqb k0 k) eqn:E; simpl.
    + apply String.eqb_eq in E. subst k0.
      destruct (String.eqb k k') eqn:E'; [apply String.eqb_eq in E'; contradiction | reflexivity].
    + destruct (String.eqb k0 k'); [reflexivity | exact IH].
Qed.

Lemma dict_keys_set {V : Type} (d : dict V) (k : string) (v : V) (x : string) :
  In x (dict_keys (dict_set d k v)) <-> x = k \/ In x (dict_keys d).
Proof.
  unfold dict_keys. induction d as [|[k' v'] d IH]; simpl.
  - intuition.
  - destruct (String.eqb k' k) eqn:E; simpl.
    + apply String.eqb_eq in E. subst k'. intuition.
    + rewrite IH. intuition.
Qed.

Lemma dict_update_cons {V : Type} (d : dict V) (k : string) (v : V) (e : list (string * V)) :
  dict_update d ((k, v) :: e) = dict_update (dict_set d k v) e.
Proof. reflexivity. Qed.

Lemma dict_update_snoc {V : Type} (d : dict V) (e : list (string * V)) (k : string) (v : V) :
  dict_update d (e ++ [(k, v)]) = dict_set (dict_update d e) k v.
Proof. unfold dict_update. rewrite fold_left_app. reflexivity. Qed.

(** After an update, a key absent from the update keeps its value. *)
Lemma dict_get_update_other {V : Type} (e : list (string * V)) (d : dict V) (k : string) :
  ~ In k (map fst e) -> dict_get (dict_update d e) k = dict_get d k.
Proof.
  revert d. induction e as [|[k0 v0] e IH]; intros d Hnin; simpl in *.
  - reflexivity.
  - change (dict_get (dict_update (dict_set d k0 v0) e) k = dict_get d k).
    rewrite IH by tauto. apply dict_get_set_ne. tauto.
Qed.

(** After an update, a key of the update has the value of its last pair. *)
Lemma dict_get_update_last {V : Type} (e : list (string * V)) (d : dict V)
      (i : nat) (k : string) (v : V) :
  nth_error e i = Some (k, v) ->
  (forall j v', (i < j)%nat -> nth_error e j <> Some (k, v')) ->
  dict_get (dict_update d e) k = Some v.
Proof.
  revert d i. induction e as [|[k0 v0] e IH]; intros d i Hi Hlast.
  - destruct i; discriminate Hi.
  - rewrite dict_update_cons. destruct i as [|i]; simpl in Hi.
    + injection Hi as -> ->.
      rewrite dict_get_update_other.
      * apply dict_get_set_eq.
      * intros Hin. apply in_map_iff in Hin. destruct Hin as [[k' v'] [Hk Hin]].
        simpl in Hk. subst k'. apply In_nth_error in Hin. destruct Hin as [j Hj].
        apply (Hlast (S j) v'); [lia | exact Hj].
    + apply (IH _ i Hi). intros j v' Hlt. apply (Hlast (S j) v'). lia.
Qed.

Lemma distinct_NoDup (l : list string) : distinct l = true -> NoDup l.
Proof.
  induction l as [|k l IH]; simpl; intros H.
  - constructor.
  - apply andb_true_iff in H. destruct H as [Hk Hl]. constructor.
    + intros Hin. apply negb_true_iff in Hk.
      assert (Hex : existsb (String.eqb k) l = true).
      { apply existsb_exists. exists k. split; [exact Hin | apply String.eqb_refl]. }
      congruence.
    + apply IH, Hl.
Qed.

(** With distinct keys, an update gives each of its keys its own value. *)
Lemma dict_get_update_in {V : Type} (e : list (string * V)) (d : dict V) (k : string) (v : V) :
  NoDup (map fst e) -> In (k, v) e -> dict_get (dict_update d e) k = Some v.
Proof.
  revert d. induction e as [|[k0 v0] e IH]; intros d Hnd Hin.
  - destruct Hin.
  - rewrite dict_update_cons. simpl in Hnd. inversion Hnd as [|? ? Hnot Hnd']; subst.
    destruct Hin as [Heq | Hin].
    + injection Heq as -> ->. rewrite dict_get_update_other by exact Hnot.
      apply dict_get_set_eq.
    + apply IH; assumption.
Qed.

Lemma dict_keys_update {V : Type} (e : list (string * V)) (d : dict V) (x : string) :
  In x (dict_keys (dict_update d e)) <-> In x (dict_keys d) \/ In x (map fst e).
Proof.
  revert d. induction e as [|[k0 v0] e IH]; intros d.
  - simpl. tauto.
  - rewrite dict_update_cons, IH, dict_keys_set. simpl. intuition.
Qed.

(** *** [zip] *)

Lemma zip_length {A B : Type} (xs : list A) (ys : list B) :
  length (zip xs ys) = Nat.min (length xs) (length ys).
Proof.
  revert ys. induction xs as [|x xs IH]; intros [|y ys]; simpl; auto.
Qed.

Lemma zip_firstn {A B : Type} (xs : list A) (ys : list B) :
  zip (firstn (Nat.min (length xs) (length ys)) xs)
      (firstn (Nat.min (length xs) (length ys)) ys) = zip xs ys.
Proof.
  revert ys. induction xs as [|x xs IH]; intros [|y ys]; simpl; try reflexivity.
  f_equal. apply IH.
Qed.

Lemma zip_nth_error {A B : Type} (xs : list A) (ys : list B) (i : nat) (x : A) (y : B) :
  nth_error (zip xs ys) i = Some (x, y) <->
  nth_error xs i = Some x /\ nth_error ys i = Some y.
Proof.
  revert ys i. induction xs as [|x0 xs IH]; intros [|y0 ys] [|i]; simpl;
    try (split; [discriminate | intros [? ?]; discriminate]).
  - split; [intros H; injection H as -> ->; auto | intros [H1 H2]; congruence].
  - apply IH.
Qed.

Lemma zip_map_fst {A B : Type} (xs : list A) (ys : list B) :
  map fst (zip xs ys) = firstn (Nat.min (length xs) (length ys)) xs.
Proof.
  revert ys. induction xs as [|x xs IH]; intros [|y ys]; simpl; try reflexivity.
  f_equal. apply IH.
Qed.

(* ====================================================================== *)
(** ** Page and listing URLs *)
(* ====================================================================== *)

Lemma descendants_app (name : string) (attrs : list (string * string))
      (cs1 cs2 : list node) :
  descendants (Tag name attrs (cs1 ++ cs2)) =
  (descendants (Tag name attrs cs1) ++ descendants (Tag name attrs cs2))%list.
Proof. simpl. apply flat_map_app. Qed.

Lemma find_all_app (name : string) (attrs : list (string * string))
      (cs1 cs2 : list node) (q : string) (fs : list attr_filter) :
  find_all (Tag name attrs (cs1 ++ cs2)) q fs =
  (find_all (Tag name attrs cs1) q fs ++ find_all (Tag name attrs cs2) q fs)%list.
Proof. unfold find_all. rewrite descendants_app. apply filter_app. Qed.

Lemma find_all_matches (n : node) (q : string) (fs : list attr_filter) (x : node) :
  In x (find_all n q fs) -> matches q fs x = true.
Proof. unfold find_all. intros H. apply filter_In in H. apply H. Qed.

Lemma page_links_have_href (doc a : node) :
  In a (page_links doc) -> get_attr a "href" = Some (href_of a).
Proof.
  intros H. apply find_all_matches in H. unfold matches in H.
  apply andb_true_iff in H. destruct H as [_ H]. simpl in H.
  apply andb_true_iff in H. destruct H as [_ H].
  apply andb_true_iff in H. destruct H as [H _].
  unfold href_of. destruct (get_attr a "href"); [reflexivity | discriminate H].
Qed.

(** The loop of [fetch_page_urls] appends one URL per anchor and never
    raises. *)
Lemma page_loop_appends (l : list node) (url_list : list string) :
  (forall a, In a l -> get_attr a "href" = Some (href_of a)) ->
  for_each l
    (fun url_list hrefs =>
       h <- tag_item hrefs "href" ;;
       Ok (url_list ++ [(base_url ++ h)%string])%list)
    url_list
  = Ok (url_list ++ map (fun a => (base_url ++ href_of a)%string) l)%list.
Proof.
  revert url_list. induction l as [|a l IH]; intros url_list Hl; simpl.
  - rewrite app_nil_r. reflexivity.
  - unfold tag_item at 1. rewrite (Hl a) by (left; reflexivity). simpl.
    rewrite IH by (intros b Hb; apply Hl; right; exact Hb).
    rewrite <- app_assoc. reflexivity.
Qed.

(** C7. For a seed page that was fetched, [fetch_page_urls] returns
    normally the seed URL followed by [base_url + href] for every
    pagination anchor, in the order of the document (the anchors under
    earlier children come first); with no pagination anchor the result is
    the one-element list holding the seed URL. *)
Theorem fetch_page_urls_seed_then_links
        (main_url : string) (fetch_house_doc : string -> result node) (doc : node) :
  fetch_house_doc main_url = Ok doc ->
  fetch_page_urls main_url fetch_house_doc
  = Ok (main_url :: map (fun a => base_url ++ href_of a) (page_links doc))
  /\ (page_links doc = [] ->
      fetch_page_urls main_url fetch_house_doc = Ok [main_url])
  /\ (forall name attrs cs1 cs2,
        doc = Tag name attrs (cs1 ++ cs2) ->
        page_links doc
        = (page_links (Tag name attrs cs1) ++ page_links (Tag name attrs cs2))%list).
Proof.
  intros Hfetch.
  assert (Hres : fetch_page_urls main_url fetch_house_doc
                 = Ok (main_url :: map (fun a => base_url ++ href_of a) (page_links doc))).
  { unfold fetch_page_urls. rewrite Hfetch. simpl bind.
    rewrite page_loop_appends by (intros a Ha; eapply page_links_have_href; exact Ha).
    reflexivity. }
  split; [exact Hres|]. split.
  - intros Hnone. rewrite Hres, Hnone. reflexivity.
  - intros name attrs cs1 cs2 ->. apply find_all_app.
Qed.

Lemma fetch_page_urls_seed_then_links_witness :
  fetch_page_urls "https://www.redfin.com/city/1" (fun _ => Ok Samples.search_page_single)
  = Ok ["https://www.redfin.com/city/1"]
  /\ fetch_page_urls "https://www.redfin.com/city/1" (fun _ => Ok Samples.search_page)
     = Ok ["https://www.redfin.com/city/1";
           "https://www.redfin.com/city/1/page-2";
           "https://www.redfin.com/city/1/page-3"].
Proof.
  split.
  - apply (fetch_page_urls_seed_then_links "https://www.redfin.com/city/1"
             (fun _ => Ok Samples.search_page_single) Samples.search_page_single);
      reflexivity.
  - apply (fetch_page_urls_seed_then_links "https://www.redfin.com/city/1"
             (fun _ => Ok Samples.search_page) Samples.search_page).
    reflexivity.
Defined.

Lemma startswith_slash (c : ascii) (r : string) :
  startswith (String c r) "/" = Ascii.eqb c "/".
Proof.
  unfold startswith. cbn [String.prefix].
  destruct (ascii_dec "/" c) as [<-|Hne].
  - destruct r; reflexivity.
  - symmetry. apply Ascii.eqb_neq. congruence.
Qed.

Lemma resolve_href_some (href : string) :
  resolve_href (Some href) = Ok (resolve_against base_url href).
Proof.
  unfold resolve_href, resolve_against, strip_leading_slash.
  destruct href as [|c r]; [reflexivity|].
  rewrite startswith_slash.
  destruct (Ascii.eqb c "/"); reflexivity.
Qed.

(* ====================================================================== *)
(** ** The field extractor *)
(* ====================================================================== *)

Lemma dict_get_in_nodup {V : Type} (l : dict V) (k : string) (v : V) :
  NoDup (map fst l) -> In (k, v) l -> dict_get l k = Some v.
Proof.
  induction l as [|[k0 v0] l IH]; intros Hnd Hin; simpl in *.
  - destruct Hin.
  - inversion Hnd as [|? ? Hnot Hnd']; subst.
    destruct Hin as [Heq | Hin].
    + injection Heq as -> ->. rewrite String.eqb_refl. reflexivity.
    + destruct (String.eqb k0 k) eqn:E.
      * apply String.eqb_eq in E. subst k0. exfalso. apply Hnot.
        apply in_map_iff. exists (k, v). split; [reflexivity | exact Hin].
      * apply IH; assumption.
Qed.

Lemma named_keys_NoDup : NoDup named_keys.
Proof. apply distinct_NoDup. vm_compute. reflexivity. Qed.

(** The display [l] is built only when the loop locals are bound. *)
Lemma named_fields_ok (doc : node) (locals : option poi) (l : list (string * value)) :
  named_fields doc locals = Ok l ->
  (exists p, locals = Some p) /\ map fst l = named_keys
  /\ In ("List_price", price doc) l
  /\ In ("Schools", VSchools (school_dict doc)) l.
Proof.
  destruct locals as [p|]; cbn [named_fields read_local bind]; intros H.
  - injection H as <-. split; [exists p; reflexivity|]. split; [reflexivity|].
    split; cbn [In]; auto 20.
  - discriminate H.
Qed.

Lemma named_fields_unbound (doc : node) :
  named_fields doc None = Raise UnboundLocalError.
Proof. reflexivity. Qed.

(** What a returned record is made of. *)
Lemma extract_ok_inv (doc : node) (rec : record) :
  extract_house_details doc = Ok rec ->
  exists table_dict locals l,
    key_detail_table doc = Ok table_dict /\
    poi_counts doc = Ok locals /\
    named_fields doc locals = Ok l /\
    rec = dict_update table_dict l.
Proof.
  unfold extract_house_details. intros H.
  apply bind_ok in H. destruct H as (td & Htd & H).
  apply bind_ok in H. destruct H as (locals & Hloc & H).
  apply bind_ok in H. destruct H as (l & Hl & H).
  injection H as <-. exists td, locals, l. auto.
Qed.

Lemma extract_field (doc : node) (rec : record) (k : string) (v : value)
      (locals : option poi) (l : list (string * value)) :
  extract_house_details doc = Ok rec ->
  poi_counts doc = Ok locals ->
  named_fields doc locals = Ok l ->
  In (k, v) l ->
  dict_get rec k = Some v.
Proof.
  intros Hex Hloc Hl Hin.
  destruct (extract_ok_inv doc rec Hex) as (td & locals' & l' & Htd & Hloc' & Hl' & ->).
  rewrite Hloc in Hloc'. injection Hloc' as <-.
  rewrite Hl in Hl'. injection Hl' as <-.
  apply dict_get_update_in; [|exact Hin].
  destruct (named_fields_ok doc locals l Hl) as (_ & -> & _).
  apply named_keys_NoDup.
Qed.

(** When the key-detail loop and the widget loop both end normally, the
    latter after at least one widget, a record is returned, and it has
    every named field. *)
Lemma extract_returns (doc : node) (table_dict : record) (p : poi) :
  key_detail_table doc = Ok table_dict ->
  poi_counts doc = Ok (Some p) ->
  exists rec,
    extract_house_details doc = Ok rec
    /\ forall k, In k named_keys -> exists v, dict_get rec k = Some v.
Proof.
  intros Htd Hloc.
  destruct (named_fields doc (Some p)) as [l|e] eqn:Hl; [|discriminate Hl].
  exists (dict_update table_dict l). split.
  - unfold extract_house_details. rewrite Htd, Hloc. cbn [bind]. rewrite Hl.
    reflexivity.
  - destruct (named_fields_ok doc _ l Hl) as (_ & Hkeys & _).
    intros k Hk. rewrite <- Hkeys in Hk. apply in_map_iff in Hk.
    destruct Hk as ([k' v] & Hfst & Hin). simpl in Hfst. subst k'.
    exists v. apply dict_get_update_in; [|exact Hin].
    rewrite Hkeys. apply named_keys_NoDup.
Qed.

(** C10. In a returned record every named field holds the value of the
    named-field extraction, whatever the key-detail table holds under the
    same key: the table is updated with the named fields last. A key that
    is not a named field keeps its key-detail value. *)
Theorem named_fields_override_key_details (doc : node) (rec : record) :
  extract_house_details doc = Ok rec ->
  exists table_dict locals l,
    key_detail_table doc = Ok table_dict /\
    poi_counts doc = Ok locals /\
    named_fields doc locals = Ok l /\
    rec = dict_update table_dict l /\
    (forall k, In k named_keys ->
       exists v, dict_get l k = Some v /\ dict_get rec k = Some v) /\
    (forall k, ~ In k named_keys -> dict_get rec k = dict_get table_dict k).
Proof.
  intros Hex.
  destruct (extract_ok_inv doc rec Hex) as (td & locals & l & Htd & Hloc & Hl & Hrec).
  exists td, locals, l. repeat (split; [assumption|]).
  destruct (named_fields_ok doc locals l Hl) as (_ & Hkeys & _).
  assert (Hnd : NoDup (map fst l)) by (rewrite Hkeys; apply named_keys_NoDup).
  split.
  - intros k Hk. rewrite <- Hkeys in Hk. apply in_map_iff in Hk.
    destruct Hk as ([k' v] & Hfst & Hin). simpl in Hfst. subst k'.
    exists v. split.
    + apply dict_get_in_nodup; assumption.
    + subst rec. apply dict_get_update_in; assumption.
  - intros k Hk. subst rec. apply dict_get_update_other. rewrite Hkeys. exact Hk.
Qed.

(** C9. The school dictionary is the result of assigning, left to right,
    the pairs made of the i-th name and the i-th rating for the indices
    below the shorter of the two lengths; what the longer sequence has
    beyond that is not used, and nothing is raised. A name at index [i]
    gets the rating at index [i] unless the name comes again later. The
    dictionary is the one stored under ["Schools"]. *)
Theorem school_dict_pairs_by_position (doc : node) :
  let names := name_lis doc in
  let ratings := rating_lis doc in
  let m := Nat.min (length names) (length ratings) in
  school_dict doc = dict_of_pairs (zip (firstn m names) (firstn m ratings))
  /\ (forall x, In x (dict_keys (school_dict doc)) <-> In x (firstn m names))
  /\ (forall i x y,
        nth_error names i = Some x ->
        nth_error ratings i = Some y ->
        (forall j, (i < j < m)%nat -> nth_error names j <> Some x) ->
        dict_get (school_dict doc) x = Some y)
  /\ (forall rec,
        extract_house_details doc = Ok rec ->
        dict_get rec "Schools" = Some (VSchools (school_dict doc))).
Proof.
  intros names ratings m.
  assert (Hdef : school_dict doc = dict_update [] (zip names ratings)) by reflexivity.
  split; [|split; [|split]].
  - unfold dict_of_pairs, m. rewrite zip_firstn. exact Hdef.
  - intros x. rewrite Hdef, dict_keys_update, zip_map_fst. simpl. tauto.
  - intros i x y Hx Hy Hlast. rewrite Hdef.
    apply (dict_get_update_last _ _ i).
    + apply zip_nth_error. auto.
    + intros j y' Hlt Hj. apply zip_nth_error in Hj. destruct Hj as [Hjx Hjy].
      apply (Hlast j); [|exact Hjx].
      split; [exact Hlt|]. unfold m.
      assert ((j < length names)%nat) by (apply nth_error_Some; congruence).
      assert ((j < length ratings)%nat) by (apply nth_error_Some; congruence).
      lia.
  - intros rec Hex.
    destruct (extract_ok_inv doc rec Hex) as (td & locals & l & _ & Hloc & Hl & _).
    apply (extract_field doc rec _ _ locals l Hex Hloc Hl).
    apply (named_fields_ok doc locals l Hl).
Qed.

Lemma named_fields_override_key_details_witness :
  extract_house_details Samples.listing = Ok Samples.listing_record
  /\ exists table_dict locals l,
       key_detail_table Samples.listing = Ok table_dict /\
       poi_counts Samples.listing = Ok locals /\
       named_fields Samples.listing locals = Ok l /\
       Samples.listing_record = dict_update table_dict l /\
       (forall k, In k named_keys ->
          exists v, dict_get l k = Some v
                    /\ dict_get Samples.listing_record k = Some v) /\
       (forall k, ~ In k named_keys ->
          dict_get Samples.listing_record k = dict_get table_dict k).
Proof.
  split; [vm_compute; reflexivity|].
  apply (named_fields_override_key_details Samples.listing Samples.listing_record).
  vm_compute; reflexivity.
Defined.

(** On the sample page the key-detail table has a ["Beds"] entry of its
    own; the record holds the parsed bed count. *)
Example listing_beds_overridden :
  (t <- key_detail_table Samples.listing ;; Ok (dict_get t "Beds"))
  = Ok (Some (VStr "four"))
  /\ dict_get Samples.listing_record "Beds" = Some (VInt 3)
  /\ dict_get Samples.listing_record "Status" = Some (VStr "Active").
Proof. vm_compute. auto. Qed.

Lemma school_dict_pairs_by_position_witness :
  name_lis Samples.listing = ["Lincoln High"; "Park Elementary"; "Surplus Middle"]
  /\ rating_lis Samples.listing = ["8"; "6"]
  /\ school_dict Samples.listing
     = dict_of_pairs (zip ["Lincoln High"; "Park Elementary"] ["8"; "6"])
  /\ dict_get (school_dict Samples.listing) "Park Elementary" = Some "6"
  /\ dict_get Samples.listing_record "Schools"
     = Some (VSchools (school_dict Samples.listing)).
Proof.
  pose proof (school_dict_pairs_by_position Samples.listing) as H.
  cbv zeta in H. destruct H as (Hzip & _ & Hpos & Hrec).
  split; [vm_compute; reflexivity|].
  split; [vm_compute; reflexivity|].
  split; [exact Hzip|].
  split.
  - apply (Hpos 1%nat "Park Elementary" "6"); try (vm_compute; reflexivity).
    intros j Hj. vm_compute in Hj. lia.
  - apply Hrec. vm_compute; reflexivity.
Defined.

(** A name that comes twice keeps the rating of its last occurrence. *)
Example school_dict_repeated_name :
  dict_of_pairs (zip ["A"; "B"; "A"] ["1"; "2"; "3"; "4"]) = [("A", "3"); ("B", "2")].
Proof. reflexivity. Qed.

(** *** The point-of-interest counts *)

Lemma poi_step_short (div : node) (locals : option poi) :
  short_widget div -> exists e, poi_step locals div = Raise e.
Proof.
  unfold short_widget. intros Hshort.
  assert (H4 : tag_count div 4 = Raise IndexError).
  { unfold tag_count. rewrite getitem_short by lia. reflexivity. }
  unfold poi_step.
  destruct (tag_count div 1) as [g|e]; [|exists e; reflexivity].
  destruct (tag_count div (-1)) as [s|e]; [|exists e; reflexivity].
  destruct (tag_count div (-2)) as [em|e]; [|exists e; reflexivity].
  cbn [bind]. rewrite H4. exists IndexError. reflexivity.
Qed.

(** The rules that stand inside a [try] do fall back to the missing
    marker, or to 0 for a flag, when their query finds no node. *)
Lemma guarded_rules_fall_back (doc : node) :
  (find doc "div" (cls "statsValue") = None -> price doc = VNan)
  /\ (find doc "h1" [AttrIs "data-rf-test-id" "abp-homeinfo-homeaddress"] = None ->
      Address doc = VNan)
  /\ (find doc "div" [AttrIs "data-rf-test-id" "abp-beds"] = None -> beds doc = VNan)
  /\ (find doc "div" [AttrIs "data-rf-test-id" "abp-baths"] = None -> bath doc = VNan)
  /\ (find doc "div" [AttrIs "data-rf-test-id" "abp-sqFt"] = None ->
      living_sqft doc = VNan)
  /\ (find doc "tspan" (cls "riskValue redOrange") = None -> d_score doc = VNan)
  /\ (find doc "div" (cls "MarketInsightsRegionCard--cardMetrics row") = None ->
      nbd_homes doc = VNan)
  /\ (find_all doc "div" (cls "score inline-block not-last") = [] ->
      wa_score doc = VNan)
  /\ (find_all doc "span" (cls "value fair") = [] -> trans_score doc = VNan)
  /\ (find doc "div" (cls "score most") = None -> Competitive_Score doc = VNan)
  /\ (activity_lis doc = [] ->
      forall i, activity_count doc i = VNan)
  /\ (find doc "div" (cls "PointOfInterestWidget") = None ->
      Nearby_Items doc = VNan
      /\ (forall kw, flag (in_text kw (Nearby_Items doc)) = VInt 0)
      /\ (forall kws, flag (any_in_text kws (Nearby_Items doc)) = VInt 0)).
Proof.
  repeat split.
  - unfold price. intros ->. reflexivity.
  - unfold Address. intros ->. reflexivity.
  - unfold beds. intros ->. reflexivity.
  - unfold bath. intros ->. reflexivity.
  - unfold living_sqft. intros ->. reflexivity.
  - unfold d_score. intros ->. reflexivity.
  - unfold nbd_homes. intros ->. reflexivity.
  - unfold wa_score. intros ->. reflexivity.
  - unfold trans_score. intros ->. reflexivity.
  - unfold Competitive_Score. intros ->. reflexivity.
  - unfold activity_count. intros -> i. unfold getitem. simpl.
    destruct (i <? 0) eqn:E.
    + rewrite Z.add_0_r, E. reflexivity.
    + destruct (0 <=? i) eqn:E'; [rewrite orb_true_r; reflexivity|].
      apply Z.ltb_ge in E. apply Z.leb_gt in E'. lia.
  - unfold Nearby_Items. rewrite H. reflexivity.
  - unfold Nearby_Items. rewrite H. reflexivity.
  - unfold Nearby_Items. rewrite H. intros [|kw kws]; reflexivity.
Qed.

(** C1. A page without a point-of-interest widget, or with a widget that
    has fewer than five tag texts, yields no record: the extractor raises.
    The loop over the widgets stands outside any [try], and the five
    locals it assigns are read when the record is built. *)
Theorem extract_raises_without_poi_counts (doc : node) :
  find_all doc "div" (cls "PointOfInterestWidget") = []
  \/ (exists div, In div (find_all doc "div" (cls "PointOfInterestWidget"))
                  /\ short_widget div) ->
  exists e, extract_house_details doc = Raise e.
Proof.
  intros Hdoc. unfold extract_house_details.
  destruct (key_detail_table doc) as [td|e]; [|exists e; reflexivity].
  cbn [bind]. destruct Hdoc as [Hnone | (div & Hin & Hshort)].
  - unfold poi_counts. rewrite Hnone. cbn [for_each bind].
    rewrite named_fields_unbound. exists UnboundLocalError. reflexivity.
  - destruct (for_each_raises poi_step _ div Hin
                (fun s => poi_step_short div s Hshort) None) as [e He].
    unfold poi_counts. rewrite He. exists e. reflexivity.
Qed.

Lemma extract_raises_without_poi_counts_witness :
  (exists e, extract_house_details Samples.listing_without_poi = Raise e)
  /\ (exists e, extract_house_details Samples.listing_short_poi = Raise e).
Proof.
  split.
  - apply (extract_raises_without_poi_counts Samples.listing_without_poi).
    left. vm_compute. reflexivity.
  - apply (extract_raises_without_poi_counts Samples.listing_short_poi).
    right. exists Samples.short_poi_widget. split.
    + vm_compute. left. reflexivity.
    + unfold short_widget. vm_compute. lia.
Defined.

(** The exceptions on the two sample pages, and on the empty page. *)
Example extract_without_poi_widget :
  extract_house_details Samples.listing_without_poi = Raise UnboundLocalError
  /\ extract_house_details Samples.listing_short_poi = Raise IndexError
  /\ extract_house_details (Samples.page []) = Raise UnboundLocalError.
Proof. vm_compute. auto. Qed.

(** The other rules of the same page do find their nodes. *)
Example fields_of_listing_without_poi :
  price Samples.listing_without_poi = VStr "1,234,567 Est."
  /\ Address Samples.listing_without_poi = VStr "1 Main St"
  /\ beds Samples.listing_without_poi = VInt 3.
Proof. vm_compute. auto. Qed.

(** *** The price *)

(** C2. When the text of the first [statsValue] node is
    ["$1,234,567 Est."], the price is the string ["1,234,567 Est."]: the
    text after the dollar sign, with its commas and its trailing words,
    and not coerced to a number. A returned record holds it under
    ["List_price"]. *)
Theorem price_is_text_after_dollar (doc n : node) :
  find doc "div" (cls "statsValue") = Some n ->
  get_text n = "$1,234,567 Est." ->
  price doc = VStr "1,234,567 Est."
  /\ (forall rec,
        extract_house_details doc = Ok rec ->
        dict_get rec "List_price" = Some (VStr "1,234,567 Est.")).
Proof.
  intros Hfind Htext.
  assert (Hprice : price doc = VStr "1,234,567 Est.").
  { unfold price, text_of. rewrite Hfind. cbn [not_none bind]. rewrite Htext.
    reflexivity. }
  split; [exact Hprice|].
  intros rec Hex.
  destruct (extract_ok_inv doc rec Hex) as (td & locals & l & _ & Hloc & Hl & _).
  rewrite <- Hprice.
  apply (extract_field doc rec _ _ locals l Hex Hloc Hl).
  apply (named_fields_ok doc locals l Hl).
Qed.

Lemma price_is_text_after_dollar_witness :
  find Samples.listing "div" (cls "statsValue") = Some Samples.stats_value
  /\ get_text Samples.stats_value = "$1,234,567 Est."
  /\ price Samples.listing = VStr "1,234,567 Est."
  /\ (forall rec,
        extract_house_details Samples.listing = Ok rec ->
        dict_get rec "List_price" = Some (VStr "1,234,567 Est.")).
Proof.
  split; [vm_compute; reflexivity|].
  split; [vm_compute; reflexivity|].
  apply (price_is_text_after_dollar Samples.listing Samples.stats_value);
    vm_compute; reflexivity.
Defined.

(** The record of the sample page has a string, not the number 1234567,
    as its price. *)
Lemma price_not_a_number_counterexample :
  find Samples.listing "div" (cls "statsValue") = Some Samples.stats_value
  /\ get_text Samples.stats_value = "$1,234,567 Est."
  /\ extract_house_details Samples.listing = Ok Samples.listing_record
  /\ dict_get Samples.listing_record "List_price" = Some (VStr "1,234,567 Est.")
  /\ dict_get Samples.listing_record "List_price" <> Some (VInt 1234567)
  /\ (forall literal,
        dict_get Samples.listing_record "List_price" <> Some (VFloat literal)).
Proof.
  split; [vm_compute; reflexivity|].
  split; [vm_compute; reflexivity|].
  split; [vm_compute; reflexivity|].
  split; [vm_compute; reflexivity|].
  split; [vm_compute; discriminate|].
  intros literal. vm_compute. discriminate.
Qed.

(* ====================================================================== *)
(** ** The scrape run *)
(* ====================================================================== *)

Section RunLemmas.

Variable net : nat -> string -> result node.
Variable disk : nat -> bool.
Variable batch_size : Z.

Lemma to_csv_details_df (st : run_state) :
  details_df (fst (to_csv disk st)) = details_df st.
Proof. unfold to_csv. destruct (disk (writes st)); reflexivity. Qed.

Lemma to_csv_ok (st : run_state) :
  disk (writes st) = true ->
  to_csv disk st
  = ({| details_df := details_df st; csv_file := Some (details_df st);
        writes := S (writes st) |}, Ok tt).
Proof. unfold to_csv. intros ->. reflexivity. Qed.

Lemma to_csv_fails (st : run_state) :
  disk (writes st) = false ->
  to_csv disk st
  = ({| details_df := details_df st; csv_file := csv_file st;
        writes := S (writes st) |}, Raise OSError).
Proof. unfold to_csv. intros ->. reflexivity. Qed.

Lemma loop_body_raise (st : run_state) (i : nat) (url : string) (e : exn) :
  process net i url = Raise e -> loop_body net disk batch_size st i url = st.
Proof. unfold loop_body. intros ->. reflexivity. Qed.

Lemma loop_body_details_df (st : run_state) (i : nat) (url : string) :
  details_df (loop_body net disk batch_size st i url)
  = (details_df st ++ match process net i url with
                      | Ok house_dict => [house_dict]
                      | Raise _ => []
                      end)%list.
Proof.
  unfold loop_body. destruct (process net i url) as [r|e].
  - destruct (py_mod (Z.of_nat i) batch_size) as [m|e]; [|reflexivity].
    destruct (m =? 0); [|reflexivity].
    rewrite to_csv_details_df. reflexivity.
  - rewrite app_nil_r. reflexivity.
Qed.

(** An iteration that does not reach a checkpoint leaves the file alone. *)
Lemma loop_body_no_checkpoint (st : run_state) (i : nat) (url : string) :
  py_mod (Z.of_nat i) batch_size <> Ok 0 ->
  csv_file (loop_body net disk batch_size st i url) = csv_file st
  /\ writes (loop_body net disk batch_size st i url) = writes st.
Proof.
  intros Hmod. unfold loop_body. destruct (process net i url) as [r|e]; [|auto].
  destruct (py_mod (Z.of_nat i) batch_size) as [m|e]; [|auto].
  destruct (m =? 0) eqn:E; [|auto].
  apply Z.eqb_eq in E. subst m. contradiction.
Qed.

Lemma run_loop_app (i : nat) (l1 l2 : list string) (st : run_state) :
  run_loop net disk batch_size i (l1 ++ l2) st
  = run_loop net disk batch_size (i + length l1) l2
      (run_loop net disk batch_size i l1 st).
Proof.
  revert i st. induction l1 as [|u l1 IH]; intros i st; simpl.
  - rewrite Nat.add_0_r. reflexivity.
  - rewrite IH. f_equal. lia.
Qed.

Lemma run_loop_details_df (i : nat) (url_list : list string) (st : run_state) :
  details_df (run_loop net disk batch_size i url_list st)
  = (details_df st ++ successes net i url_list)%list.
Proof.
  revert i st. induction url_list as [|u l IH]; intros i st; simpl.
  - rewrite app_nil_r. reflexivity.
  - rewrite IH, loop_body_details_df.
    destruct (process net i u); rewrite <- app_assoc; reflexivity.
Qed.

Lemma successes_length (i : nat) (url_list : list string) :
  (length (successes net i url_list) <= length url_list)%nat.
Proof.
  revert i. induction url_list as [|u l IH]; intros i; simpl.
  - lia.
  - specialize (IH (S i)). destruct (process net i u); simpl; lia.
Qed.

Lemma successes_app (i : nat) (l1 l2 : list string) :
  successes net i (l1 ++ l2)
  = (successes net i l1 ++ successes net (i + length l1) l2)%list.
Proof.
  revert i. induction l1 as [|u l1 IH]; intros i; simpl.
  - rewrite Nat.add_0_r. reflexivity.
  - rewrite IH. replace (S i + length l1)%nat with (i + S (length l1))%nat by lia.
    destruct (process net i u); reflexivity.
Qed.

Lemma scrape_unfold (url_list : list string) (file0 : option table) :
  let st := run_loop net disk batch_size 0 url_list (init_state file0) in
  scrape_and_save_property_details net disk url_list file0 batch_size
  = if disk (writes st)
    then ({| details_df := details_df st; csv_file := Some (details_df st);
             writes := S (writes st) |}, Ok (details_df st))
    else ({| details_df := details_df st; csv_file := csv_file st;
             writes := S (writes st) |}, Raise OSError).
Proof.
  intros st. unfold scrape_and_save_property_details. fold st.
  unfold to_csv. destruct (disk (writes st)); reflexivity.
Qed.

Lemma scrape_details_df (url_list : list string) (file0 : option table) :
  details_df (fst (scrape_and_save_property_details net disk url_list file0 batch_size))
  = successes net 0 url_list.
Proof.
  rewrite scrape_unfold.
  destruct (disk _); simpl; rewrite run_loop_details_df; reflexivity.
Qed.

End RunLemmas.

Lemma firstn_S_nth {A : Type} (l : list A) (n : nat) (x : A) :
  nth_error l n = Some x -> firstn (S n) l = (firstn n l ++ [x])%list.
Proof.
  revert n. induction l as [|a l IH]; intros [|n] H; simpl in *; try discriminate.
  - injection H as ->. reflexivity.
  - f_equal. apply IH, H.
Qed.

Lemma state_after_S (net : nat -> string -> result node) (disk : nat -> bool)
      (n : nat) (url_list : list string) (file0 : option table) (b : Z) (url : string) :
  nth_error url_list n = Some url ->
  state_after net disk (S n) url_list file0 b
  = loop_body net disk b (state_after net disk n url_list file0 b) n url.
Proof.
  intros Hn. unfold state_after. rewrite (firstn_S_nth _ _ _ Hn), run_loop_app.
  simpl. f_equal. rewrite length_firstn.
  assert ((n < length url_list)%nat) by (apply nth_error_Some; congruence).
  lia.
Qed.

(** *** Arithmetic of the checkpoint positions *)

Lemma checkpoint_rows_hit (b : Z) (n : nat) :
  1 <= b -> Z.of_nat n mod b = 0 -> checkpoint_rows b (S n) = S n.
Proof.
  intros Hb Hmod. unfold checkpoint_rows.
  replace (Z.of_nat (S n) - 1) with (Z.of_nat n) by lia.
  pose proof (Z.div_mod (Z.of_nat n) b ltac:(lia)) as Hdm.
  rewrite Hmod in Hdm.
  replace (Z.of_nat n / b * b) with (Z.of_nat n) by lia. lia.
Qed.

Lemma checkpoint_rows_miss (b : Z) (n : nat) :
  1 <= b -> Z.of_nat n mod b <> 0 -> checkpoint_rows b (S n) = checkpoint_rows b n.
Proof.
  intros Hb Hmod. unfold checkpoint_rows.
  replace (Z.of_nat (S n) - 1) with (Z.of_nat n) by lia.
  pose proof (Z.div_mod (Z.of_nat n) b ltac:(lia)) as Hdm.
  pose proof (Z.mod_pos_bound (Z.of_nat n) b ltac:(lia)) as Hbound.
  assert (Hq : (Z.of_nat n - 1) / b = Z.of_nat n / b).
  { symmetry. apply (Z.div_unique_pos _ _ _ (Z.of_nat n mod b - 1)); lia. }
  rewrite Hq. reflexivity.
Qed.

Lemma checkpoint_rows_bounds (b : Z) (n : nat) :
  1 <= b -> (1 <= n)%nat -> (1 <= checkpoint_rows b n <= n)%nat.
Proof.
  intros Hb Hn. unfold checkpoint_rows.
  pose proof (Z.div_mod (Z.of_nat n - 1) b ltac:(lia)) as Hdm.
  pose proof (Z.mod_pos_bound (Z.of_nat n - 1) b ltac:(lia)) as Hbound.
  assert (0 <= (Z.of_nat n - 1) / b) by (apply Z.div_pos; lia).
  nia.
Qed.

Lemma checkpoint_rows_behind (b : Z) (n : nat) :
  2 <= b -> (1 <= n)%nat -> Z.of_nat n mod b = 0 -> (checkpoint_rows b n < n)%nat.
Proof.
  intros Hb Hn Hmod. unfold checkpoint_rows.
  pose proof (Z.div_mod (Z.of_nat n - 1) b ltac:(lia)) as Hdm.
  pose proof (Z.mod_pos_bound (Z.of_nat n - 1) b ltac:(lia)) as Hbound.
  pose proof (Z.div_mod (Z.of_nat n) b ltac:(lia)) as Hdm'.
  rewrite Hmod in Hdm'.
  assert (0 <= (Z.of_nat n - 1) / b) by (apply Z.div_pos; lia).
  assert (Hne : (Z.of_nat n - 1) mod b <> 0).
  { intros Hz. rewrite Hz in Hdm.
    set (q1 := Z.of_nat n / b) in *. set (q0 := (Z.of_nat n - 1) / b) in *.
    assert (Hdiv : b * (q1 - q0) = 1) by (rewrite Z.mul_sub_distr_l; lia).
    destruct (Z.le_gt_cases (q1 - q0) 0); nia. }
  lia.
Qed.

(** *** Checkpoints *)

Lemma py_mod_pos (i b : Z) : 1 <= b -> py_mod i b = Ok (i mod b).
Proof.
  intros Hb. unfold py_mod.
  destruct (b =? 0) eqn:E; [apply Z.eqb_eq in E; lia | reflexivity].
Qed.

Lemma firstn_app_le {A : Type} (k : nat) (l1 l2 : list A) :
  (k <= length l1)%nat -> firstn k (l1 ++ l2) = firstn k l1.
Proof.
  intros Hk. rewrite firstn_app.
  replace (k - length l1)%nat with 0%nat by lia.
  simpl. apply app_nil_r.
Qed.

(** On a run without failures, the table has one row per listing and,
    from the first listing on, the file holds the first
    [checkpoint_rows] rows. *)
Lemma checkpoint_invariant (net : nat -> string -> result node) (disk : nat -> bool)
      (url_list : list string) (file0 : option table) (b : Z) :
  1 <= b ->
  (forall k, disk k = true) ->
  (forall i url, nth_error url_list i = Some url -> is_ok (process net i url) = true) ->
  forall n, (n <= length url_list)%nat ->
    length (details_df (state_after net disk n url_list file0 b)) = n
    /\ ((1 <= n)%nat ->
        csv_file (state_after net disk n url_list file0 b)
        = Some (firstn (checkpoint_rows b n)
                  (details_df (state_after net disk n url_list file0 b)))).
Proof.
  intros Hb Hdisk Hok. induction n as [|n IH]; intros Hn.
  - split; [reflexivity | lia].
  - destruct (nth_error url_list n) as [url|] eqn:Hurl;
      [|apply nth_error_None in Hurl; lia].
    rewrite (state_after_S _ _ _ _ _ _ _ Hurl).
    destruct (IH ltac:(lia)) as [Hlen Hfile].
    set (st := state_after net disk n url_list file0 b) in *.
    specialize (Hok n url Hurl).
    unfold loop_body. destruct (process net n url) as [r|e]; [|discriminate Hok].
    rewrite (py_mod_pos _ _ Hb).
    destruct (Z.of_nat n mod b =? 0) eqn:Hmod.
    + apply Z.eqb_eq in Hmod.
      rewrite to_csv_ok by apply Hdisk. simpl.
      rewrite length_app, Hlen. simpl. split; [lia|]. intros _.
      rewrite (checkpoint_rows_hit _ _ Hb Hmod).
      rewrite firstn_all2; [reflexivity|]. rewrite length_app, Hlen. simpl. lia.
    + apply Z.eqb_neq in Hmod. simpl.
      rewrite length_app, Hlen. simpl. split; [lia|]. intros _.
      assert (Hn1 : (1 <= n)%nat).
      { destruct n; [exfalso; apply Hmod; apply Z.mod_0_l; lia | lia]. }
      rewrite (checkpoint_rows_miss _ _ Hb Hmod), (Hfile Hn1).
      rewrite firstn_app_le; [reflexivity|].
      rewrite Hlen. apply (checkpoint_rows_bounds b n Hb Hn1).
Qed.

(** C3. On a run in which every fetch, extraction and write succeeds,
    with a batch size of at least one: once [n >= 1] listings have been
    processed the file holds the table in full as it was at the last index
    that is a multiple of the batch size, that is its first
    [checkpoint_rows] rows. For a batch size of two or more and [n] a
    multiple of it, this is not the table of the first [n] listings. At
    the end of the run the file holds the final table. *)
Theorem checkpoint_follows_first_listing_of_batch
        (net : nat -> string -> result node) (disk : nat -> bool)
        (url_list : list string) (file0 : option table) (b : Z) (n : nat) :
  1 <= b ->
  (forall k, disk k = true) ->
  (forall i url, nth_error url_list i = Some url -> is_ok (process net i url) = true) ->
  (1 <= n <= length url_list)%nat ->
  let st := state_after net disk n url_list file0 b in
  let final := scrape_and_save_property_details net disk url_list file0 b in
  details_df st = successes net 0 (firstn n url_list)
  /\ length (details_df st) = n
  /\ csv_file st = Some (firstn (checkpoint_rows b n) (details_df st))
  /\ (1 <= checkpoint_rows b n <= n)%nat
  /\ (2 <= b -> Z.of_nat n mod b = 0 -> csv_file st <> Some (details_df st))
  /\ csv_file (fst final) = Some (details_df (fst final))
  /\ snd final = Ok (details_df (fst final)).
Proof.
  intros Hb Hdisk Hok [Hn1 Hn] st final.
  destruct (checkpoint_invariant net disk url_list file0 b Hb Hdisk Hok n Hn)
    as [Hlen Hfile].
  fold st in Hlen, Hfile. specialize (Hfile Hn1).
  split; [unfold st, state_after; rewrite run_loop_details_df; reflexivity|].
  split; [exact Hlen|]. split; [exact Hfile|].
  split; [apply (checkpoint_rows_bounds b n Hb Hn1)|].
  split.
  - intros Hb2 Hmod Heq. rewrite Hfile in Heq. injection Heq as Heq.
    pose proof (checkpoint_rows_behind b n Hb2 Hn1 Hmod) as Hlt.
    apply (f_equal (@length record)) in Heq.
    rewrite length_firstn, Hlen in Heq. lia.
  - unfold final. rewrite scrape_unfold, Hdisk. simpl. auto.
Qed.

Lemma checkpoint_follows_first_listing_of_batch_witness :
  let st := state_after Samples.net_ok Samples.disk_ok 2 ["a"; "b"] None 2 in
  details_df st = [Samples.record_a; Samples.record_b]
  /\ csv_file st = Some [Samples.record_a]
  /\ csv_file st <> Some (details_df st).
Proof.
  pose proof (checkpoint_follows_first_listing_of_batch
                Samples.net_ok Samples.disk_ok ["a"; "b"] None 2 2) as H.
  cbv zeta in *.
  assert (Hok : forall i url, nth_error ["a"; "b"] i = Some url ->
                              is_ok (process Samples.net_ok i url) = true).
  { intros [|[|i]] url Hi; simpl in Hi.
    - injection Hi as <-. vm_compute. reflexivity.
    - injection Hi as <-. vm_compute. reflexivity.
    - destruct i; discriminate Hi. }
  specialize (H ltac:(lia) (fun k => eq_refl) Hok ltac:(simpl; lia)).
  destruct H as (Hdf & _ & Hfile & _ & Hne & _).
  split; [vm_compute; reflexivity|].
  split; [rewrite Hfile; vm_compute; reflexivity|].
  apply Hne; [lia | reflexivity].
Defined.

(** *** Failures of a listing *)

(** C5. An exception of the fetch or of the extraction of a listing ends
    that iteration with the state unchanged, and the loop goes on with the
    listings after it; the table at the end holds, in order, the records
    of the listings that were fetched and extracted, so it has at most as
    many rows as there are URLs. *)
Theorem failed_listing_is_skipped
        (net : nat -> string -> result node) (disk : nat -> bool)
        (url_list : list string) (file0 : option table) (batch_size : Z) :
  (forall st i url e,
      process net i url = Raise e ->
      loop_body net disk batch_size st i url = st)
  /\ (forall before url after e,
        url_list = (before ++ url :: after)%list ->
        process net (length before) url = Raise e ->
        run_loop net disk batch_size 0 url_list (init_state file0)
        = run_loop net disk batch_size (S (length before)) after
            (run_loop net disk batch_size 0 before (init_state file0))
        /\ successes net 0 url_list
           = (successes net 0 before ++ successes net (S (length before)) after)%list)
  /\ details_df (fst (scrape_and_save_property_details net disk url_list file0 batch_size))
     = successes net 0 url_list
  /\ (length (details_df
                (fst (scrape_and_save_property_details net disk url_list file0 batch_size)))
      <= length url_list)%nat
  /\ (forall df,
        snd (scrape_and_save_property_details net disk url_list file0 batch_size) = Ok df ->
        df = successes net 0 url_list /\ (length df <= length url_list)%nat).
Proof.
  split; [intros st i url e; apply loop_body_raise|].
  split.
  - intros before url after e -> Hfail. split.
    + rewrite run_loop_app. simpl. rewrite (loop_body_raise _ _ _ _ _ _ _ Hfail).
      reflexivity.
    + rewrite successes_app. simpl. rewrite Hfail. reflexivity.
  - split; [apply scrape_details_df|].
    split; [rewrite scrape_details_df; apply successes_length|].
    intros df. rewrite scrape_unfold. destruct (disk _); simpl; intros Hdf.
    + injection Hdf as <-. rewrite run_loop_details_df. simpl.
      split; [reflexivity | apply successes_length].
    + discriminate Hdf.
Qed.

Lemma failed_listing_is_skipped_witness :
  process Samples.net_flaky 1 "bad" = Raise URLError
  /\ process Samples.net_flaky 2 "nopoi" = Raise UnboundLocalError
  /\ snd (scrape_and_save_property_details Samples.net_flaky Samples.disk_ok
            ["a"; "bad"; "nopoi"; "b"] None 10)
     = Ok [Samples.record_a; Samples.record_b]
  /\ (length (details_df
                (fst (scrape_and_save_property_details Samples.net_flaky Samples.disk_ok
                        ["a"; "bad"; "nopoi"; "b"] None 10))) <= 4)%nat.
Proof.
  destruct (failed_listing_is_skipped Samples.net_flaky Samples.disk_ok
              ["a"; "bad"; "nopoi"; "b"] None 10) as (_ & _ & _ & Hlen & _).
  split; [vm_compute; reflexivity|].
  split; [vm_compute; reflexivity|].
  split; [vm_compute; reflexivity|].
  exact Hlen.
Defined.

(** *** Failures of a write *)

(** C4, as the code has it. A write that fails at a checkpoint is caught
    like any other exception of the iteration: the record stays in the
    table and the loop goes on, so the table
    at the end holds the record of every listing that was fetched and
    extracted, whatever the disk did. Only the write after the loop is
    outside the [try]: when it fails the run raises, otherwise the run
    returns the table and the file holds it. *)
Theorem write_failure_surfaces_only_at_end
        (net : nat -> string -> result node) (disk : nat -> bool)
        (url_list : list string) (file0 : option table) (batch_size : Z) :
  let st := run_loop net disk batch_size 0 url_list (init_state file0) in
  (forall s i url house_dict,
      process net i url = Ok house_dict ->
      py_mod (Z.of_nat i) batch_size = Ok 0 ->
      disk (writes s) = false ->
      loop_body net disk batch_size s i url
      = {| details_df := (details_df s ++ [house_dict])%list;
           csv_file := csv_file s;
           writes := S (writes s) |})
  /\ details_df st = successes net 0 url_list
  /\ scrape_and_save_property_details net disk url_list file0 batch_size
     = if disk (writes st)
       then ({| details_df := details_df st; csv_file := Some (details_df st);
                writes := S (writes st) |}, Ok (details_df st))
       else ({| details_df := details_df st; csv_file := csv_file st;
                writes := S (writes st) |}, Raise OSError).
Proof.
  intros st. split.
  - intros s i url house_dict Hp Hmod Hdisk. unfold loop_body.
    rewrite Hp, Hmod. simpl. unfold to_csv. simpl. rewrite Hdisk. reflexivity.
  - split; [unfold st; rewrite run_loop_details_df; reflexivity|].
    apply scrape_unfold.
Qed.

Lemma write_failure_surfaces_only_at_end_witness :
  loop_body Samples.net_ok Samples.disk_first_fails 1 (init_state None) 0 "a"
  = {| details_df := [Samples.record_a]; csv_file := None; writes := 1 |}
  /\ snd (scrape_and_save_property_details Samples.net_ok Samples.disk_first_fails
            ["a"; "b"] None 1)
     = Ok [Samples.record_a; Samples.record_b].
Proof.
  destruct (write_failure_surfaces_only_at_end Samples.net_ok Samples.disk_first_fails
              ["a"; "b"] None 1) as (Hstep & _ & Hrun).
  split.
  - apply (Hstep (init_state None) 0%nat "a" Samples.record_a);
      vm_compute; reflexivity.
  - rewrite Hrun. vm_compute. reflexivity.
Defined.

(** The first write of this run fails, at the checkpoint of the first
    listing; the run still processes the second listing and returns
    normally, with both records. *)
Lemma write_failure_not_fatal_counterexample :
  snd (to_csv Samples.disk_first_fails
         (append_row (init_state None) Samples.record_a)) = Raise OSError
  /\ loop_body Samples.net_ok Samples.disk_first_fails 1 (init_state None) 0 "a"
     = fst (to_csv Samples.disk_first_fails
              (append_row (init_state None) Samples.record_a))
  /\ snd (scrape_and_save_property_details Samples.net_ok Samples.disk_first_fails
            ["a"; "b"] None 1)
     = Ok [Samples.record_a; Samples.record_b].
Proof. vm_compute. auto. Qed.

(* ====================================================================== *)
(** ** Further properties: result pages and listing URLs *)
(* ====================================================================== *)

Lemma card_url_ok (div : node) :
  card_has_href div -> card_url div = Ok (card_target div).
Proof.
  intros (a & h & Ha & Hh). unfold card_url, card_target, href_of.
  rewrite Ha. simpl. rewrite Hh. apply resolve_href_some.
Qed.

Lemma card_url_raises (div : node) :
  ~ card_has_href div -> exists e, card_url div = Raise e.
Proof.
  intros Hbad. unfold card_url.
  destruct (find div "a" []) as [a|] eqn:Ha; simpl.
  - destruct (get_attr a "href") as [h|] eqn:Hh.
    + exfalso. apply Hbad. exists a, h. auto.
    + exists TypeError. reflexivity.
  - exists AttributeError. reflexivity.
Qed.

Lemma cards_loop_ok (l : list node) (house_urls : list string) :
  (forall div, In div l -> card_has_href div) ->
  for_each l
    (fun house_urls div =>
       full_url <- card_url div ;;
       Ok (house_urls ++ [full_url])%list)
    house_urls
  = Ok (house_urls ++ map card_target l)%list.
Proof.
  revert house_urls. induction l as [|div l IH]; intros acc Hl; simpl.
  - rewrite app_nil_r. reflexivity.
  - rewrite card_url_ok by (apply Hl; left; reflexivity). simpl.
    rewrite IH by (intros d Hd; apply Hl; right; exact Hd).
    rewrite <- app_assoc. reflexivity.
Qed.

Lemma extract_house_urls_from_ok (fetch_house_doc : nat -> string -> result node)
      (url_list : list string) :
  forall (docs : list node) (n : nat) (house_urls : list string),
    length docs = length url_list ->
    (forall i url doc,
        nth_error url_list i = Some url -> nth_error docs i = Some doc ->
        fetch_house_doc (n + i)%nat url = Ok doc) ->
    (forall doc div, In doc docs -> In div (page_cards doc) -> card_has_href div) ->
    extract_house_urls_from n url_list fetch_house_doc house_urls
    = Ok (house_urls ++ flat_map page_targets docs)%list.
Proof.
  induction url_list as [|url rest IH]; intros docs n acc Hlen Hfetch Hcards.
  - destruct docs; [|discriminate Hlen]. simpl. rewrite app_nil_r. reflexivity.
  - destruct docs as [|doc docs]; [discriminate Hlen|].
    cbn [extract_house_urls_from].
    pose proof (Hfetch 0%nat url doc eq_refl eq_refl) as H0.
    rewrite Nat.add_0_r in H0. rewrite H0. cbn [bind].
    rewrite cards_loop_ok
      by (intros div Hdiv; apply (Hcards doc); [left; reflexivity | exact Hdiv]).
    cbn [bind].
    rewrite (IH docs (S n)).
    + simpl. unfold page_targets at 2, page_cards. rewrite <- app_assoc. reflexivity.
    + simpl in Hlen. lia.
    + intros i u d Hu Hd. replace (S n + i)%nat with (n + S i)%nat by lia.
      apply Hfetch; assumption.
    + intros d div Hd. apply Hcards. right. exact Hd.
Qed.

Lemma flat_map_page_targets (docs : list node) :
  flat_map page_targets docs = map card_target (flat_map page_cards docs).
Proof.
  induction docs as [|d docs IH]; simpl; [reflexivity|].
  rewrite map_app, IH. reflexivity.
Qed.

(** C6. When every result page is fetched and every listing card has an
    anchor with an href, [extract_house_urls] returns one URL per card,
    and the URL at the position of a card is the origin, one slash, and
    the card's href without one leading slash: the href ["/property/123"]
    gives exactly ["https://www.redfin.com/property/123"], and an href
    that has no leading slash is appended after exactly one slash. *)
Theorem extract_house_urls_resolves_href
        (fetch_house_doc : nat -> string -> result node)
        (url_list : list string) (docs : list node) :
  length docs = length url_list ->
  (forall i url doc,
      nth_error url_list i = Some url -> nth_error docs i = Some doc ->
      fetch_house_doc i url = Ok doc) ->
  (forall doc div, In doc docs -> In div (page_cards doc) -> card_has_href div) ->
  exists house_urls,
    extract_house_urls url_list fetch_house_doc = Ok house_urls
    /\ length house_urls = length (flat_map page_cards docs)
    /\ forall k div a href,
         nth_error (flat_map page_cards docs) k = Some div ->
         find div "a" [] = Some a ->
         get_attr a "href" = Some href ->
         nth_error house_urls k
         = Some (resolve_against "https://www.redfin.com" href)
         /\ (href = "/property/123" ->
             nth_error house_urls k = Some "https://www.redfin.com/property/123")
         /\ (startswith href "/" = false ->
             nth_error house_urls k = Some ("https://www.redfin.com" ++ "/" ++ href)).
Proof.
  intros Hlen Hfetch Hcards.
  exists (map card_target (flat_map page_cards docs)).
  split; [|split].
  - unfold extract_house_urls.
    rewrite (extract_house_urls_from_ok _ _ docs 0 []); auto.
    rewrite flat_map_page_targets. reflexivity.
  - apply length_map.
  - intros k div a href Hk Ha Hh.
    assert (Hurl : nth_error (map card_target (flat_map page_cards docs)) k
                   = Some (resolve_against "https://www.redfin.com" href)).
    { rewrite nth_error_map, Hk. simpl. unfold card_target, href_of.
      rewrite Ha, Hh. reflexivity. }
    split; [exact Hurl|]. split.
    + intros ->. exact Hurl.
    + intros Hno. rewrite Hurl. unfold resolve_against, strip_leading_slash.
      destruct href as [|c r]; [reflexivity|].
      rewrite startswith_slash in Hno. rewrite Hno. reflexivity.
Qed.

Lemma extract_house_urls_resolves_href_witness :
  exists house_urls,
    extract_house_urls ["p2"; "p1"] Samples.site = Ok house_urls
    /\ length house_urls = 3%nat
    /\ nth_error house_urls 0 = Some "https://www.redfin.com/property/123"
    /\ nth_error house_urls 2 = Some "https://www.redfin.com/CA/home/7".
Proof.
  destruct (extract_house_urls_resolves_href Samples.site ["p2"; "p1"]
              [Samples.search_page_single; Samples.search_page])
    as (house_urls & Hres & Hlen & Hk).
  - reflexivity.
  - intros [|[|i]] url doc Hu Hd; simpl in Hu, Hd;
      try (injection Hu as <-; injection Hd as <-; reflexivity).
    destruct i; discriminate Hu.
  - intros doc div Hdoc Hdiv.
    assert (Hcase : div = Samples.card "/property/123" \/ div = Samples.card "CA/home/7").
    { simpl in Hdoc. destruct Hdoc as [<-|[<-|[]]];
        vm_compute in Hdiv; vm_compute; intuition congruence. }
    destruct Hcase as [-> | ->].
    + exists (Tag "a" [("href", "/property/123")] [Text "home"]), "/property/123".
      split; reflexivity.
    + exists (Tag "a" [("href", "CA/home/7")] [Text "home"]), "CA/home/7".
      split; reflexivity.
  - exists house_urls. split; [exact Hres|]. split; [exact Hlen|]. split.
    + apply (Hk 0%nat (Samples.card "/property/123")
               (Tag "a" [("href", "/property/123")] [Text "home"]) "/property/123");
        reflexivity.
    + apply (Hk 2%nat (Samples.card "CA/home/7")
               (Tag "a" [("href", "CA/home/7")] [Text "home"]) "CA/home/7");
        reflexivity.
Defined.

(** X1. When every result page is fetched and every card has an anchor
    with an href, [extract_house_urls] returns the targets of the cards
    page after page, in the order of the cards on each page; nothing is
    dropped or merged, so there are as many URLs as cards. *)
Theorem extract_house_urls_page_then_position
        (fetch_house_doc : nat -> string -> result node)
        (url_list : list string) (docs : list node) :
  length docs = length url_list ->
  (forall i url doc,
      nth_error url_list i = Some url -> nth_error docs i = Some doc ->
      fetch_house_doc i url = Ok doc) ->
  (forall doc div, In doc docs -> In div (page_cards doc) -> card_has_href div) ->
  extract_house_urls url_list fetch_house_doc = Ok (flat_map page_targets docs)
  /\ (forall house_urls,
        extract_house_urls url_list fetch_house_doc = Ok house_urls ->
        length house_urls
        = length (flat_map page_cards docs)).
Proof.
  intros Hlen Hfetch Hcards.
  assert (Hres : extract_house_urls url_list fetch_house_doc
                 = Ok (flat_map page_targets docs)).
  { unfold extract_house_urls.
    rewrite (extract_house_urls_from_ok _ _ docs 0 []); auto. }
  split; [exact Hres|].
  intros house_urls Hu. rewrite Hres in Hu. injection Hu as <-.
  clear. induction docs as [|d docs IH]; simpl; [reflexivity|].
  rewrite !length_app, IH. unfold page_targets. rewrite length_map. reflexivity.
Qed.

Lemma extract_house_urls_page_then_position_witness :
  extract_house_urls ["p1"; "p2"; "p1"] Samples.site
  = Ok ["https://www.redfin.com/property/123";
        "https://www.redfin.com/CA/home/7";
        "https://www.redfin.com/property/123";
        "https://www.redfin.com/property/123";
        "https://www.redfin.com/CA/home/7"].
Proof.
  apply (extract_house_urls_page_then_position Samples.site ["p1"; "p2"; "p1"]
           [Samples.search_page; Samples.search_page_single; Samples.search_page]).
  - reflexivity.
  - intros [|[|[|i]]] url doc Hu Hd; simpl in Hu, Hd;
      try (injection Hu as <-; injection Hd as <-; reflexivity).
    destruct i; discriminate Hu.
  - intros doc div Hdoc Hdiv.
    assert (Hcase : div = Samples.card "/property/123" \/ div = Samples.card "CA/home/7").
    { simpl in Hdoc. destruct Hdoc as [<-|[<-|[<-|[]]]];
        vm_compute in Hdiv; vm_compute; intuition congruence. }
    destruct Hcase as [-> | ->].
    + exists (Tag "a" [("href", "/property/123")] [Text "home"]), "/property/123".
      split; reflexivity.
    + exists (Tag "a" [("href", "CA/home/7")] [Text "home"]), "CA/home/7".
      split; reflexivity.
Defined.

Lemma extract_house_urls_from_raises (fetch_house_doc : nat -> string -> result node)
      (url_list : list string) :
  forall (i n : nat) (house_urls : list string) (url : string),
    nth_error url_list i = Some url ->
    ((exists e, fetch_house_doc (n + i)%nat url = Raise e)
     \/ (exists doc div, fetch_house_doc (n + i)%nat url = Ok doc
                         /\ In div (page_cards doc) /\ ~ card_has_href div)) ->
    exists e, extract_house_urls_from n url_list fetch_house_doc house_urls = Raise e.
Proof.
  induction url_list as [|u rest IH]; intros i n acc url Hi Hbad.
  - destruct i; discriminate Hi.
  - cbn [extract_house_urls_from].
    destruct i as [|i]; simpl in Hi.
    + injection Hi as ->. rewrite Nat.add_0_r in Hbad.
      destruct Hbad as [[e He] | (doc & div & Hdoc & Hdiv & Hno)].
      * rewrite He. exists e. reflexivity.
      * rewrite Hdoc. cbn [bind].
        destruct (for_each_raises
                    (fun house_urls div =>
                       full_url <- card_url div ;;
                       Ok (house_urls ++ [full_url])%list)
                    _ div Hdiv
                    (fun s => match card_url_raises div Hno with
                              | ex_intro _ e He =>
                                  ex_intro _ e
                                    (f_equal (fun r => bind r _) He)
                              end) acc) as [e He].
        unfold page_cards in He. rewrite He. exists e. reflexivity.
    + destruct (fetch_house_doc n u) as [doc|e]; [|exists e; reflexivity].
      cbn [bind].
      destruct (for_each _ _ acc) as [acc'|e]; [|exists e; reflexivity].
      cbn [bind]. apply (IH i (S n) acc' url Hi).
      replace (S n + i)%nat with (n + S i)%nat by lia. exact Hbad.
Qed.

(** X2. [extract_house_urls] is all or nothing: when one result page
    cannot be fetched, or holds a card without an anchor or with an anchor
    without href, the call raises and the URLs of the other pages are not
    returned. *)
Theorem extract_house_urls_all_or_nothing
        (fetch_house_doc : nat -> string -> result node)
        (url_list : list string) (i : nat) (url : string) :
  nth_error url_list i = Some url ->
  ((exists e, fetch_house_doc i url = Raise e)
   \/ (exists doc div, fetch_house_doc i url = Ok doc
                       /\ In div (page_cards doc) /\ ~ card_has_href div)) ->
  exists e, extract_house_urls url_list fetch_house_doc = Raise e.
Proof.
  intros Hi Hbad. unfold extract_house_urls.
  apply (extract_house_urls_from_raises _ _ i 0%nat [] url Hi). exact Hbad.
Qed.

Lemma extract_house_urls_all_or_nothing_witness :
  (exists e, extract_house_urls ["p1"; "gone"; "p2"] Samples.site = Raise e)
  /\ (exists e, extract_house_urls ["p1"; "broken"] Samples.site = Raise e).
Proof.
  split.
  - apply (extract_house_urls_all_or_nothing Samples.site _ 1 "gone");
      [reflexivity|].
    left. exists URLError. reflexivity.
  - apply (extract_house_urls_all_or_nothing Samples.site _ 1 "broken");
      [reflexivity|].
    right. exists Samples.broken_search_page, Samples.card_without_anchor.
    split; [reflexivity|]. split; [vm_compute; tauto|].
    intros (a & h & Ha & _). vm_compute in Ha. discriminate Ha.
Defined.

Lemma fetch_page_urls_ok (main_url : string)
      (fetch_house_doc : string -> result node) (doc : node) :
  fetch_house_doc main_url = Ok doc ->
  fetch_page_urls main_url fetch_house_doc
  = Ok (main_url :: map (fun a => base_url ++ href_of a) (page_links doc)).
Proof.
  intros Hfetch. unfold fetch_page_urls. rewrite Hfetch. simpl bind.
  rewrite page_loop_appends by (intros a Ha; eapply page_links_have_href; exact Ha).
  reflexivity.
Qed.

(** X3. [fetch_page_urls] raises exactly when the fetch of the seed page
    raises, and then with the same exception: the loop over the anchors
    cannot fail. A call that returns gives one URL more than the page has
    pagination anchors. *)
Theorem fetch_page_urls_raises_iff
        (main_url : string) (fetch_house_doc : string -> result node) :
  (forall e, fetch_page_urls main_url fetch_house_doc = Raise e
             <-> fetch_house_doc main_url = Raise e)
  /\ (forall url_list doc,
        fetch_house_doc main_url = Ok doc ->
        fetch_page_urls main_url fetch_house_doc = Ok url_list ->
        length url_list = S (length (page_links doc))).
Proof.
  split.
  - intros e. destruct (fetch_house_doc main_url) as [doc|e'] eqn:Hf.
    + rewrite (fetch_page_urls_ok _ _ _ Hf). split; discriminate.
    + unfold fetch_page_urls. rewrite Hf. cbn [bind].
      split; intros H; injection H as ->; reflexivity.
  - intros url_list doc Hf Hres. rewrite (fetch_page_urls_ok _ _ _ Hf) in Hres.
    injection Hres as <-. simpl. rewrite length_map. reflexivity.
Qed.

Lemma fetch_page_urls_raises_iff_witness :
  fetch_page_urls "gone" (Samples.site 0) = Raise URLError
  /\ (forall url_list,
        fetch_page_urls "p1" (Samples.site 0) = Ok url_list ->
        length url_list = 3%nat).
Proof.
  destruct (fetch_page_urls_raises_iff "gone" (Samples.site 0)) as [Hraise _].
  destruct (fetch_page_urls_raises_iff "p1" (Samples.site 0)) as [_ Hlen].
  split.
  - apply Hraise. reflexivity.
  - intros url_list H. apply (Hlen url_list Samples.search_page eq_refl H).
Defined.

Lemma append_length (s t : string) :
  String.length (s ++ t) = (String.length s + String.length t)%nat.
Proof. induction s as [|c s IH]; simpl; [reflexivity | rewrite IH; reflexivity]. Qed.

Lemma append_cancel_l (s t u : string) : (s ++ t = s ++ u)%string -> t = u.
Proof.
  induction s as [|c s IH]; simpl; intros H; [exact H|].
  injection H as H. apply IH, H.
Qed.

(** X4. The two resolutions of an href agree only on hrefs that start
    with a slash. For the page with the single pagination anchor [a],
    [fetch_page_urls] returns after the seed the URL that
    [extract_house_urls] would make of the same href if and only if the
    href has a leading slash; without one, [fetch_page_urls] joins origin
    and href with no separator. *)
Theorem pagination_href_needs_leading_slash
        (main_url : string) (fetch_house_doc : string -> result node)
        (doc a : node) :
  fetch_house_doc main_url = Ok doc ->
  page_links doc = [a] ->
  fetch_page_urls main_url fetch_house_doc
  = Ok [main_url; "https://www.redfin.com" ++ href_of a]
  /\ (fetch_page_urls main_url fetch_house_doc
      = (u <- resolve_href (get_attr a "href") ;; Ok [main_url; u])
      <-> startswith (href_of a) "/" = true).
Proof.
  intros Hf Hlinks.
  assert (Hres : fetch_page_urls main_url fetch_house_doc
                 = Ok [main_url; "https://www.redfin.com" ++ href_of a]).
  { rewrite (fetch_page_urls_ok _ _ _ Hf), Hlinks. reflexivity. }
  split; [exact Hres|].
  rewrite Hres.
  rewrite (page_links_have_href doc a) by (rewrite Hlinks; left; reflexivity).
  rewrite resolve_href_some. cbn [bind].
  unfold resolve_against, strip_leading_slash.
  assert (Hlen : forall h : string,
             Ok [main_url; "https://www.redfin.com" ++ h]
             = Ok [main_url; "https://www.redfin.com" ++ "/" ++ h] -> False).
  { intros h H.
    apply (f_equal (fun r => match r with
                             | Ok [_; u] => String.length u
                             | _ => 0%nat
                             end)) in H.
    rewrite !append_length in H. simpl in H. lia. }
  destruct (href_of a) as [|c r] eqn:Hh.
  - split; [|discriminate]. intros H. exfalso. apply (Hlen _ H).
  - rewrite startswith_slash. destruct (Ascii.eqb c "/") eqn:E.
    + apply Ascii.eqb_eq in E. subst c. split; reflexivity.
    + split; [|discriminate]. intros H. exfalso. apply (Hlen _ H).
Qed.

Lemma pagination_href_needs_leading_slash_witness :
  fetch_page_urls "seed" (fun _ => Ok (Samples.one_link_page "city/1/page-2"))
  = Ok ["seed"; "https://www.redfin.comcity/1/page-2"]
  /\ fetch_page_urls "seed" (fun _ => Ok (Samples.one_link_page "/city/1/page-2"))
     = (u <- resolve_href (Some "/city/1/page-2") ;; Ok ["seed"; u]).
Proof.
  split.
  - apply (pagination_href_needs_leading_slash "seed"
             (fun _ => Ok (Samples.one_link_page "city/1/page-2"))
             (Samples.one_link_page "city/1/page-2")
             (Samples.go_to_page "city/1/page-2")); reflexivity.
  - apply (pagination_href_needs_leading_slash "seed"
             (fun _ => Ok (Samples.one_link_page "/city/1/page-2"))
             (Samples.one_link_page "/city/1/page-2")
             (Samples.go_to_page "/city/1/page-2")); reflexivity.
Defined.

(* ====================================================================== *)
(** ** Further properties: the listing record *)
(* ====================================================================== *)

(** A returned record holds, under each named key, the value of its rule;
    the loop locals were bound. *)
Lemma record_fields (doc : node) (rec : record) :
  extract_house_details doc = Ok rec ->
  exists p,
    poi_counts doc = Ok (Some p)
    /\ forall k v,
         In (k, v)
            [ ("List_price", price doc);
              ("Address", Address doc);
              ("Beds", beds doc);
              ("Baths", bath doc);
              ("Living_sqft", living_sqft doc);
              ("Drought_Score", d_score doc);
              ("Walk_score", wa_score doc);
              ("Neighbourhood_Homes", nbd_homes doc);
              ("Transit_score", trans_score doc);
              ("Groceries_stores", VInt (groceries p));
              ("Services", VInt (services p));
              ("Emergency", VInt (emergency p));
              ("Shopping", VInt (shopping p));
              ("Food_and_Drink", VInt (food_drink p));
              ("Schools", VSchools (school_dict doc));
              ("Competitive_Score", Competitive_Score doc);
              ("page_view_count", activity_count doc 0);
              ("page_fav_count_30", activity_count doc 1);
              ("page_fav_all_time_count", activity_count doc 2);
              ("has_supercenter", flag (any_in_text SuperCenters (Nearby_Items doc)));
              ("has_major_indian_grocery",
                flag (any_in_text Major_Indian_Grocery (Nearby_Items doc)));
              ("has_major_entertainment",
                flag (any_in_text Major_Entertainment (Nearby_Items doc)));
              ("has_indian_restaurant",
                flag (in_text "Indian Restaurant" (Nearby_Items doc)));
              ("has_chinese_restaurant",
                flag (in_text "Chinese Restaurant" (Nearby_Items doc)));
              ("has_mexican_restaurant",
                flag (in_text "Mexican Restaurant" (Nearby_Items doc)));
              ("has_boba", flag (any_in_text Boba (Nearby_Items doc)));
              ("has_starbucks", flag (in_text "Starbucks" (Nearby_Items doc)));
              ("has_healthcare_support",
                flag (any_in_text Healthcare (Nearby_Items doc)));
              ("has_mall", flag (in_text "Mall" (Nearby_Items doc))) ] ->
         dict_get rec k = Some v.
Proof.
  intros Hex.
  destruct (extract_ok_inv doc rec Hex) as (td & locals & l & Htd & Hloc & Hl & Hrec).
  destruct locals as [p|]; [|discriminate Hl].
  exists p. split; [exact Hloc|].
  cbn [named_fields read_local bind] in Hl. injection Hl as <-.
  intros k v Hin. subst rec.
  apply dict_get_update_in; [|exact Hin].
  apply named_keys_NoDup.
Qed.

Lemma poi_counts_some_widget (doc : node) (p : poi) :
  poi_counts doc = Ok (Some p) ->
  exists w, find doc "div" (cls "PointOfInterestWidget") = Some w.
Proof.
  unfold poi_counts, find. intros H.
  destruct (find_all doc "div" (cls "PointOfInterestWidget")) as [|w ws].
  - discriminate H.
  - exists w. reflexivity.
Qed.

Lemma any_in_text_str (kws : list string) (text : string) :
  any_in_text kws (VStr text) = Ok (mentions kws text).
Proof.
  induction kws as [|kw kws IH]; simpl; [reflexivity|].
  destruct (contains kw text); [reflexivity | exact IH].
Qed.

Lemma flag_any_in_text_str (kws : list string) (text : string) :
  flag (any_in_text kws (VStr text)) = flag_value (mentions kws text).
Proof. rewrite any_in_text_str. reflexivity. Qed.

(** X5. In a returned record the ten amenity flags are computed from the
    text of the first point-of-interest widget: a flag is 1 exactly when
    one of its keywords occurs in that text, as a case-sensitive substring,
    and 0 otherwise. The fallbacks of the flag rules for a missing text
    never show in a returned record. *)
Theorem flags_reflect_widget_text (doc : node) (rec : record) :
  extract_house_details doc = Ok rec ->
  exists w,
    find doc "div" (cls "PointOfInterestWidget") = Some w
    /\ dict_get rec "has_supercenter"
       = Some (flag_value (mentions SuperCenters (get_text w)))
    /\ dict_get rec "has_major_indian_grocery"
       = Some (flag_value (mentions Major_Indian_Grocery (get_text w)))
    /\ dict_get rec "has_major_entertainment"
       = Some (flag_value (mentions Major_Entertainment (get_text w)))
    /\ dict_get rec "has_indian_restaurant"
       = Some (flag_value (contains "Indian Restaurant" (get_text w)))
    /\ dict_get rec "has_chinese_restaurant"
       = Some (flag_value (contains "Chinese Restaurant" (get_text w)))
    /\ dict_get rec "has_mexican_restaurant"
       = Some (flag_value (contains "Mexican Restaurant" (get_text w)))
    /\ dict_get rec "has_boba"
       = Some (flag_value (mentions Boba (get_text w)))
    /\ dict_get rec "has_starbucks"
       = Some (flag_value (contains "Starbucks" (get_text w)))
    /\ dict_get rec "has_healthcare_support"
       = Some (flag_value (mentions Healthcare (get_text w)))
    /\ dict_get rec "has_mall"
       = Some (flag_value (contains "Mall" (get_text w))).
Proof.
  intros Hex.
  destruct (record_fields doc rec Hex) as (p & Hloc & Hfields).
  destruct (poi_counts_some_widget doc p Hloc) as [w Hw].
  exists w. split; [exact Hw|].
  assert (Hnear : Nearby_Items doc = VStr (get_text w)).
  { unfold Nearby_Items, text_of. rewrite Hw. reflexivity. }
  rewrite Hnear in Hfields.
  repeat split;
    first [ rewrite <- flag_any_in_text_str | idtac ];
    apply Hfields; cbn [In]; auto 40.
Qed.

Lemma flags_reflect_widget_text_witness :
  extract_house_details Samples.listing = Ok Samples.listing_record
  /\ dict_get Samples.listing_record "has_supercenter" = Some (VInt 1)
  /\ dict_get Samples.listing_record "has_mall" = Some (VInt 0).
Proof.
  assert (Hex : extract_house_details Samples.listing = Ok Samples.listing_record)
    by (vm_compute; reflexivity).
  destruct (flags_reflect_widget_text Samples.listing Samples.listing_record Hex)
    as (w & Hw & Hsuper & _ & _ & _ & _ & _ & _ & _ & _ & Hmall).
  vm_compute in Hw. injection Hw as <-.
  split; [exact Hex|]. split.
  - rewrite Hsuper. vm_compute. reflexivity.
  - rewrite Hmall. vm_compute. reflexivity.
Defined.

Lemma poi_step_ok (locals : option poi) (div : node) (p : poi) :
  poi_step locals div = Ok (Some p) ->
  tag_count div 1 = Ok (groceries p)
  /\ tag_count div (-1) = Ok (services p)
  /\ tag_count div (-2) = Ok (emergency p)
  /\ tag_count div 4 = Ok (shopping p)
  /\ tag_count div 2 = Ok (food_drink p).
Proof.
  unfold poi_step. intros H.
  apply bind_ok in H. destruct H as (g & Hg & H).
  apply bind_ok in H. destruct H as (s & Hs & H).
  apply bind_ok in H. destruct H as (e & He & H).
  apply bind_ok in H. destruct H as (sh & Hsh & H).
  apply bind_ok in H. destruct H as (f & Hf & H).
  injection H as <-. simpl. auto.
Qed.

Lemma poi_counts_last (doc : node) (ws : list node) (w : node) (p : poi) :
  find_all doc "div" (cls "PointOfInterestWidget") = (ws ++ [w])%list ->
  poi_counts doc = Ok (Some p) ->
  poi_step None w = Ok (Some p).
Proof.
  unfold poi_counts. intros -> H. rewrite for_each_app in H.
  apply bind_ok in H. destruct H as (s & _ & H). simpl in H.
  destruct (poi_step s w) as [s'|e] eqn:Hstep; [|discriminate H].
  injection H as ->. exact Hstep.
Qed.

(** X6. When a page has several point-of-interest widgets, the five
    counts of a returned record are read from the last widget, by the
    positions 1, -1, -2, 4 and 2 of its tag texts, while the amenity text
    is the text of the first widget. *)
Theorem counts_from_last_widget (doc : node) (rec : record)
        (first last : node) (between : list node) :
  extract_house_details doc = Ok rec ->
  find_all doc "div" (cls "PointOfInterestWidget")
  = (first :: between ++ [last])%list ->
  Nearby_Items doc = VStr (get_text first)
  /\ (g <- tag_count last 1 ;; Ok (Some (VInt g)))
     = Ok (dict_get rec "Groceries_stores")
  /\ (g <- tag_count last (-1) ;; Ok (Some (VInt g)))
     = Ok (dict_get rec "Services")
  /\ (g <- tag_count last (-2) ;; Ok (Some (VInt g)))
     = Ok (dict_get rec "Emergency")
  /\ (g <- tag_count last 4 ;; Ok (Some (VInt g)))
     = Ok (dict_get rec "Shopping")
  /\ (g <- tag_count last 2 ;; Ok (Some (VInt g)))
     = Ok (dict_get rec "Food_and_Drink").
Proof.
  intros Hex Hws.
  destruct (record_fields doc rec Hex) as (p & Hloc & Hfields).
  pose proof (poi_counts_last doc (first :: between) last p Hws Hloc) as Hstep.
  destruct (poi_step_ok _ _ _ Hstep) as (Hg & Hs & He & Hsh & Hf).
  split.
  - unfold Nearby_Items, text_of, find. rewrite Hws. reflexivity.
  - rewrite Hg, Hs, He, Hsh, Hf. cbn [bind].
    repeat split; f_equal; symmetry; apply Hfields; cbn [In]; auto 40.
Qed.

Lemma counts_from_last_widget_witness :
  exists rec,
    extract_house_details Samples.two_widgets = Ok rec
    /\ Nearby_Items Samples.two_widgets = VStr (get_text Samples.poi_widget)
    /\ dict_get rec "Groceries_stores" = Some (VInt 2)
    /\ dict_get rec "has_mall" = Some (VInt 0).
Proof.
  destruct (extract_house_details Samples.two_widgets) as [rec|e] eqn:Hex;
    [|vm_compute in Hex; discriminate Hex].
  exists rec.
  destruct (counts_from_last_widget Samples.two_widgets rec
              Samples.poi_widget Samples.second_widget [] Hex eq_refl)
    as (Hnear & Hg & _).
  split; [reflexivity|]. split; [exact Hnear|].
  vm_compute in Hex. injection Hex as <-.
  split; vm_compute; reflexivity.
Defined.

Lemma getitem_last_of_five {A : Type} (l : list A) :
  length l = 5%nat -> getitem l (-1) = getitem l 4 /\ getitem l (-2) = getitem l 3.
Proof.
  destruct l as [|a [|b [|c [|d [|e [|f l]]]]]]; try discriminate.
  intros _. split; reflexivity.
Qed.

(** X7. When the last point-of-interest widget has exactly five tag
    texts, positions 4 and -1 are the same tag: a returned record has the
    same number under ["Shopping"] and ["Services"], and ["Emergency"] is
    the tag text at position 3. *)
Theorem five_tags_shopping_is_services (doc : node) (rec : record)
        (ws : list node) (last : node) :
  extract_house_details doc = Ok rec ->
  find_all doc "div" (cls "PointOfInterestWidget") = (ws ++ [last])%list ->
  length (find_all last "div" (cls "Tag__text")) = 5%nat ->
  dict_get rec "Shopping" = dict_get rec "Services"
  /\ (g <- tag_count last 3 ;; Ok (Some (VInt g))) = Ok (dict_get rec "Emergency").
Proof.
  intros Hex Hws Hfive.
  destruct (record_fields doc rec Hex) as (p & Hloc & Hfields).
  pose proof (poi_counts_last doc ws last p Hws Hloc) as Hstep.
  destruct (poi_step_ok _ _ _ Hstep) as (_ & Hs & He & Hsh & _).
  destruct (getitem_last_of_five _ Hfive) as [H1 H2].
  assert (Hsame : shopping p = services p).
  { unfold tag_count in Hs, Hsh. rewrite H1 in Hs. rewrite Hs in Hsh.
    injection Hsh as Hsh. symmetry. exact Hsh. }
  split.
  - rewrite (Hfields "Shopping" (VInt (shopping p))) by (cbn [In]; auto 40).
    rewrite (Hfields "Services" (VInt (services p))) by (cbn [In]; auto 40).
    rewrite Hsame. reflexivity.
  - unfold tag_count in He |- *. rewrite <- H2, He. cbn [bind].
    f_equal. symmetry. apply Hfields. cbn [In]; auto 40.
Qed.

Lemma five_tags_shopping_is_services_witness :
  exists rec,
    extract_house_details Samples.two_widgets = Ok rec
    /\ dict_get rec "Shopping" = dict_get rec "Services"
    /\ dict_get rec "Emergency" = Some (VInt 4).
Proof.
  destruct (extract_house_details Samples.two_widgets) as [rec|e] eqn:Hex;
    [|vm_compute in Hex; discriminate Hex].
  exists rec.
  destruct (five_tags_shopping_is_services Samples.two_widgets rec
              [Samples.poi_widget] Samples.second_widget Hex eq_refl eq_refl)
    as (Hsame & Hem).
  split; [reflexivity|]. split; [exact Hsame|].
  assert (H3 : tag_count Samples.second_widget 3 = Ok 4) by (vm_compute; reflexivity).
  rewrite H3 in Hem. cbn [bind] in Hem. injection Hem as Hem.
  symmetry. exact Hem.
Defined.

(** *** The key-detail table *)

Lemma getitem_raises_index {A : Type} (l : list A) (i : Z) (e : exn) :
  getitem l i = Raise e -> e = IndexError.
Proof.
  unfold getitem.
  destruct (_ || _); [intros H; injection H as <-; reflexivity|].
  destruct (nth_error _ _); [discriminate|].
  intros H; injection H as <-; reflexivity.
Qed.

Lemma key_detail_step_raises_index (table_dict : record) (i : node) (e : exn) :
  key_detail_step table_dict i = Raise e -> e = IndexError.
Proof.
  unfold key_detail_step.
  destruct (getitem (find_all i "span" []) 0) as [s0|e0] eqn:H0; cbn [bind].
  - destruct (getitem (find_all i "span" []) 1) as [s1|e1] eqn:H1; cbn [bind].
    + discriminate.
    + intros H. injection H as <-. apply (getitem_raises_index _ _ _ H1).
  - intros H. injection H as <-. apply (getitem_raises_index _ _ _ H0).
Qed.

Lemma for_each_raise_inv {A S : Type} (body : S -> A -> result S) (l : list A)
      (s : S) (e : exn) :
  for_each l body s = Raise e -> exists x s', In x l /\ body s' x = Raise e.
Proof.
  revert s. induction l as [|x l IH]; intros s H; simpl in H.
  - discriminate H.
  - destruct (body s x) as [s'|e'] eqn:Hb.
    + destruct (IH s' H) as (y & s'' & Hin & Hy). exists y, s''. split; [right|]; assumption.
    + injection H as <-. exists x, s. split; [left; reflexivity | exact Hb].
Qed.

(** X8. A key-detail entry with fewer than two spans makes
    [extract_house_details] raise [IndexError], whatever else the page
    holds: the loop over the key-detail entries has no [try]. *)
Theorem key_detail_without_two_spans_raises (doc i : node) :
  In i (find_all doc "div" (cls "keyDetail font-weight-roman font-size-base")) ->
  (length (find_all i "span" []) < 2)%nat ->
  extract_house_details doc = Raise IndexError.
Proof.
  intros Hin Hshort.
  assert (Hstep : forall td, exists e, key_detail_step td i = Raise e).
  { intros td. unfold key_detail_step.
    destruct (getitem (find_all i "span" []) 0) as [s0|e0]; cbn [bind].
    - rewrite (getitem_short _ 1) by lia. exists IndexError. reflexivity.
    - exists e0. reflexivity. }
  destruct (for_each_raises key_detail_step _ i Hin Hstep []) as [e He].
  destruct (for_each_raise_inv _ _ _ _ He) as (x & td & _ & Hx).
  apply key_detail_step_raises_index in Hx. subst e.
  unfold extract_house_details, key_detail_table. rewrite He. reflexivity.
Qed.

Lemma key_detail_without_two_spans_raises_witness :
  extract_house_details Samples.listing_bad_key_detail = Raise IndexError.
Proof.
  apply (key_detail_without_two_spans_raises Samples.listing_bad_key_detail
           (Samples.el "div" "keyDetail font-weight-roman font-size-base"
              [Tag "span" [] [Text "Status"]])).
  - vm_compute. tauto.
  - vm_compute. lia.
Defined.

Lemma split_char_absent (c : ascii) (s : string) :
  mem_char c s = false -> split_char c s = [s].
Proof.
  induction s as [|a s IH]; simpl; intros H; [reflexivity|].
  apply orb_false_iff in H. destruct H as [Ha Hs].
  rewrite Ha, (IH Hs). reflexivity.
Qed.

(** X9. A key-detail entry whose label is a single line stores under the
    label only the first white-space-separated word of the value text; the
    other words are dropped, and a value without any word stores
    nothing. *)
Theorem key_detail_keeps_first_word (table_dict : record) (i s0 s1 : node)
        (rest : list node) :
  find_all i "span" [] = s0 :: s1 :: rest ->
  mem_char newline (get_text s0) = false ->
  key_detail_step table_dict i
  = Ok (match split_ws (get_text s1) with
        | [] => table_dict
        | word :: _ => dict_set table_dict (get_text s0) (VStr word)
        end).
Proof.
  intros Hspans Hline. unfold key_detail_step. rewrite Hspans.
  change (getitem (s0 :: s1 :: rest) 0) with (getitem (s0 :: s1 :: rest) (Z.of_nat 0)).
  rewrite (getitem_nonneg _ 0 s0) by reflexivity. cbn [bind].
  change (getitem (s0 :: s1 :: rest) 1) with (getitem (s0 :: s1 :: rest) (Z.of_nat 1)).
  rewrite (getitem_nonneg _ 1 s1) by reflexivity. cbn [bind].
  rewrite (split_char_absent _ _ Hline).
  destruct (split_ws (get_text s1)) as [|word words]; reflexivity.
Qed.

Lemma key_detail_keeps_first_word_witness :
  key_detail_step [] Samples.key_detail_two_words = Ok [("Style", VStr "Single")].
Proof.
  apply (key_detail_keeps_first_word [] Samples.key_detail_two_words
           (Tag "span" [] [Text "Style"]) (Tag "span" [] [Text "Single Family"]) []);
    reflexivity.
Defined.

(** *** The price and the activity counts *)

(** The pieces of [split_char]: either the separator is absent, or the
    text is a first piece without separator, the separator, and a rest
    that is split in turn. *)
Lemma split_char_shape (c : ascii) (s : string) :
  match split_char c s with
  | [] => False
  | [x] => x = s /\ mem_char c s = false
  | x :: y :: t =>
      exists tail, s = x ++ String c tail
                   /\ mem_char c x = false
                   /\ split_char c tail = y :: t
  end.
Proof.
  induction s as [|a s IH]; simpl.
  - auto.
  - destruct (Ascii.eqb a c) eqn:E.
    + apply Ascii.eqb_eq in E. subst a.
      destruct (split_char c s) as [|y t] eqn:Hs; [destruct IH|].
      exists s. auto.
    + destruct (split_char c s) as [|x [|y t]] eqn:Hs.
      * destruct IH.
      * destruct IH as [-> Hm]. rewrite Hm. auto.
      * destruct IH as (tail & -> & Hx & Htail).
        exists tail. simpl. rewrite E, Hx. auto.
Qed.

Lemma startswith_head (c : ascii) (r : string) :
  startswith (String c r) (String c EmptyString) = true.
Proof.
  unfold startswith. cbn [String.prefix].
  destruct (ascii_dec c c) as [_|Hne]; [|contradiction].
  destruct r; reflexivity.
Qed.

Lemma append_empty_r (s : string) : (s ++ "")%string = s.
Proof. induction s as [|a s IH]; simpl; [reflexivity | rewrite IH; reflexivity]. Qed.

Lemma mem_char_append (c : ascii) (s t : string) :
  mem_char c (s ++ t) = mem_char c s || mem_char c t.
Proof.
  induction s as [|a s IH]; simpl; [reflexivity|].
  rewrite IH. apply orb_assoc.
Qed.

(** X10. For a page with a [statsValue] node, the price is missing
    exactly when the node's text has no dollar sign; otherwise it is the
    text between the first dollar sign and the next one, or the end, so a
    price never holds a dollar sign. *)
Theorem price_between_dollar_signs (doc n : node) :
  find doc "div" (cls "statsValue") = Some n ->
  (price doc = VNan <-> mem_char "$" (get_text n) = false)
  /\ (forall p,
        price doc = VStr p ->
        mem_char "$" p = false
        /\ exists before rest,
             get_text n = before ++ "$" ++ p ++ rest
             /\ mem_char "$" before = false
             /\ (rest = EmptyString \/ startswith rest "$" = true)).
Proof.
  intros Hfind.
  assert (Hprice : price doc
                   = match split_char "$" (get_text n) with
                     | _ :: p :: _ => VStr p
                     | _ => VNan
                     end).
  { unfold price, text_of. rewrite Hfind. cbn [not_none bind].
    destruct (split_char "$" (get_text n)) as [|x [|p t]]; try reflexivity.
    change (getitem (x :: p :: t) 1) with (getitem (x :: p :: t) (Z.of_nat 1)).
    rewrite (getitem_nonneg _ 1 p) by reflexivity. reflexivity. }
  pose proof (split_char_shape "$" (get_text n)) as Hshape.
  rewrite Hprice.
  destruct (split_char "$" (get_text n)) as [|x [|p t]].
  - destruct Hshape.
  - destruct Hshape as [_ Hm]. split; [tauto|]. intros p' Hp. discriminate Hp.
  - destruct Hshape as (tail & Htext & Hx & Htail). split.
    + split; [discriminate|].
      intros Hm. rewrite Htext, mem_char_append in Hm. simpl in Hm.
      rewrite orb_true_r in Hm. discriminate Hm.
    + intros p' Hp. injection Hp as <-.
      pose proof (split_char_shape "$" tail) as Hshape'. rewrite Htail in Hshape'.
      destruct t as [|y t'].
      * destruct Hshape' as [-> Hm]. split; [exact Hm|].
        exists x, EmptyString. rewrite Htext.
        split; [|split; [exact Hx | left; reflexivity]].
        rewrite append_empty_r. reflexivity.
      * destruct Hshape' as (tail' & -> & Hp & _). split; [exact Hp|].
        exists x, (String "$" tail'). rewrite Htext.
        split; [reflexivity|]. split; [exact Hx|]. right.
        apply startswith_head.
Qed.

Lemma price_between_dollar_signs_witness :
  find Samples.listing "div" (cls "statsValue") = Some Samples.stats_value
  /\ price Samples.listing <> VNan
  /\ (forall p, price Samples.listing = VStr p -> mem_char "$" p = false).
Proof.
  assert (Hfind : find Samples.listing "div" (cls "statsValue") = Some Samples.stats_value)
    by (vm_compute; reflexivity).
  destruct (price_between_dollar_signs Samples.listing Samples.stats_value Hfind)
    as [Hnan Hstr].
  split; [exact Hfind|]. split.
  - intros H. apply Hnan in H. vm_compute in H. discriminate H.
  - intros p Hp. apply (Hstr p Hp).
Defined.

(** X11. The three activity fields are filled from the front of the list
    of counters: the field for position [i] is present exactly when the
    page has more than [i] counters, and then it is the text of counter
    [i]; so a later field that is present implies the earlier ones. *)
Theorem activity_counts_fill_in_order (doc : node) :
  (forall i : nat,
      activity_count doc (Z.of_nat i)
      = match nth_error (activity_lis doc) i with
        | Some s => VStr s
        | None => VNan
        end)
  /\ (forall i : nat,
        activity_count doc (Z.of_nat i) <> VNan
        <-> (i < length (activity_lis doc))%nat)
  /\ (forall i j : nat,
        (j <= i)%nat ->
        activity_count doc (Z.of_nat i) <> VNan ->
        activity_count doc (Z.of_nat j) <> VNan).
Proof.
  assert (Hval : forall i : nat,
             activity_count doc (Z.of_nat i)
             = match nth_error (activity_lis doc) i with
               | Some s => VStr s
               | None => VNan
               end).
  { intros i. unfold activity_count.
    destruct (nth_error (activity_lis doc) i) as [s|] eqn:Hi.
    - rewrite (getitem_nonneg _ _ _ Hi). reflexivity.
    - apply nth_error_None in Hi. rewrite getitem_short by lia. reflexivity. }
  assert (Hiff : forall i : nat,
             activity_count doc (Z.of_nat i) <> VNan
             <-> (i < length (activity_lis doc))%nat).
  { intros i. rewrite Hval. rewrite <- nth_error_Some.
    destruct (nth_error (activity_lis doc) i); split; congruence. }
  split; [exact Hval|]. split; [exact Hiff|].
  intros i j Hle Hi. apply Hiff. apply Hiff in Hi. lia.
Qed.

Lemma activity_counts_fill_in_order_witness :
  activity_count Samples.activity_page 0 = VStr "1,024"
  /\ activity_count Samples.activity_page 1 <> VNan
  /\ activity_count Samples.activity_page 2 = VNan.
Proof.
  destruct (activity_counts_fill_in_order Samples.activity_page) as (Hval & Hiff & _).
  split; [apply (Hval 0%nat)|]. split.
  - apply (Hiff 1%nat). vm_compute. lia.
  - apply (Hval 2%nat).
Defined.

(** *** The keys of a record *)

Lemma existsb_eqb_In (k : string) (l : list string) :
  existsb (String.eqb k) l = true <-> In k l.
Proof.
  rewrite existsb_exists. split.
  - intros (x & Hin & Heq). apply String.eqb_eq in Heq. subst x. exact Hin.
  - intros Hin. exists k. split; [exact Hin | apply String.eqb_refl].
Qed.

Lemma dict_keys_set_eq {V : Type} (d : dict V) (k : string) (v : V) :
  dict_keys (dict_set d k v)
  = if existsb (String.eqb k) (dict_keys d) then dict_keys d
    else (dict_keys d ++ [k])%list.
Proof.
  unfold dict_keys. induction d as [|[k' v'] d IH]; simpl; [reflexivity|].
  rewrite (String.eqb_sym k k').
  destruct (String.eqb k' k) eqn:E; simpl.
  - apply String.eqb_eq in E. subst k'. reflexivity.
  - rewrite IH. destruct (existsb (String.eqb k) (map fst d)); reflexivity.
Qed.

Lemma dict_keys_update_order {V : Type} (e : list (string * V)) (d : dict V) :
  NoDup (map fst e) ->
  dict_keys (dict_update d e)
  = (dict_keys d ++ new_keys (dict_keys d) (map fst e))%list.
Proof.
  revert d. induction e as [|[k v] e IH]; intros d Hnd.
  - simpl. rewrite app_nil_r. reflexivity.
  - rewrite dict_update_cons. simpl in Hnd.
    inversion Hnd as [|? ? Hnot Hnd']; subst.
    rewrite (IH _ Hnd'), dict_keys_set_eq. unfold new_keys. simpl.
    destruct (existsb (String.eqb k) (dict_keys d)) eqn:Hk; simpl.
    + reflexivity.
    + rewrite <- app_assoc. simpl. do 2 f_equal.
      apply filter_ext_in. intros x Hx.
      rewrite existsb_app. simpl. rewrite orb_false_r.
      destruct (String.eqb x k) eqn:E; [|rewrite orb_false_r; reflexivity].
      apply String.eqb_eq in E. subst x. contradiction.
Qed.

Lemma dict_set_keys_NoDup {V : Type} (d : dict V) (k : string) (v : V) :
  NoDup (dict_keys d) -> NoDup (dict_keys (dict_set d k v)).
Proof.
  intros Hnd. rewrite dict_keys_set_eq.
  destruct (existsb (String.eqb k) (dict_keys d)) eqn:Hk; [exact Hnd|].
  apply NoDup_app; [exact Hnd | constructor; [intros [] | constructor] |].
  intros x Hx [<-|[]].
  apply existsb_eqb_In in Hx. congruence.
Qed.

Lemma dict_update_keys_NoDup {V : Type} (e : list (string * V)) (d : dict V) :
  NoDup (dict_keys d) -> NoDup (dict_keys (dict_update d e)).
Proof.
  revert d. induction e as [|[k v] e IH]; intros d Hnd; [exact Hnd|].
  rewrite dict_update_cons. apply IH, dict_set_keys_NoDup, Hnd.
Qed.

Lemma for_each_invariant {A S : Type} (P : S -> Prop) (body : S -> A -> result S)
      (l : list A) (s r : S) :
  P s ->
  (forall s x s', P s -> body s x = Ok s' -> P s') ->
  for_each l body s = Ok r -> P r.
Proof.
  intros Hs Hstep. revert s Hs. induction l as [|x l IH]; intros s Hs H; simpl in H.
  - injection H as <-. exact Hs.
  - destruct (body s x) as [s'|e] eqn:Hb; [|discriminate H].
    apply (IH s'); [apply (Hstep s x s' Hs Hb) | exact H].
Qed.

Lemma key_detail_table_NoDup (doc : node) (table_dict : record) :
  key_detail_table doc = Ok table_dict -> NoDup (dict_keys table_dict).
Proof.
  unfold key_detail_table.
  apply (for_each_invariant (fun d : record => NoDup (dict_keys d))).
  - constructor.
  - intros s x s' Hs Hstep. unfold key_detail_step in Hstep.
    apply bind_ok in Hstep. destruct Hstep as (s0 & _ & Hstep).
    apply bind_ok in Hstep. destruct Hstep as (s1 & _ & Hstep).
    injection Hstep as <-. apply dict_update_keys_NoDup, Hs.
Qed.

(** X12. The keys of a returned record come in a fixed order: first the
    keys of the key-detail table in the order in which the page gave
    them, then the named fields that the table does not already have, in
    the order of the dictionary display; no key comes twice. A page
    without key-detail entries gives exactly the 29 named keys. *)
Theorem record_keys_in_order (doc : node) (rec : record) :
  extract_house_details doc = Ok rec ->
  exists table_dict,
    key_detail_table doc = Ok table_dict
    /\ dict_keys rec
       = (dict_keys table_dict ++ new_keys (dict_keys table_dict) named_keys)%list
    /\ NoDup (dict_keys rec)
    /\ (table_dict = [] -> dict_keys rec = named_keys).
Proof.
  intros Hex.
  destruct (extract_ok_inv doc rec Hex) as (td & locals & l & Htd & Hloc & Hl & ->).
  destruct (named_fields_ok doc locals l Hl) as (_ & Hkeys & _).
  assert (Horder : dict_keys (dict_update td l)
                   = (dict_keys td ++ new_keys (dict_keys td) named_keys)%list).
  { rewrite dict_keys_update_order, Hkeys; [reflexivity|].
    rewrite Hkeys. apply named_keys_NoDup. }
  exists td. split; [exact Htd|]. split; [exact Horder|]. split.
  - apply dict_update_keys_NoDup. apply (key_detail_table_NoDup doc td Htd).
  - intros ->. rewrite Horder. reflexivity.
Qed.

Lemma record_keys_in_order_witness :
  extract_house_details Samples.listing = Ok Samples.listing_record
  /\ firstn 4 (dict_keys Samples.listing_record)
     = ["Beds"; "Status"; "List_price"; "Address"]
  /\ NoDup (dict_keys Samples.listing_record).
Proof.
  assert (Hex : extract_house_details Samples.listing = Ok Samples.listing_record)
    by (vm_compute; reflexivity).
  destruct (record_keys_in_order Samples.listing Samples.listing_record Hex)
    as (td & Htd & Horder & Hnd & _).
  split; [exact Hex|]. split; [|exact Hnd].
  rewrite Horder. vm_compute in Htd. injection Htd as <-. reflexivity.
Defined.

(* ====================================================================== *)
(** ** Further properties: the scrape run *)
(* ====================================================================== *)

Section RunInvariants.

Variable net : nat -> string -> result node.
Variable disk : nat -> bool.
Variable batch_size : Z.
Variable file0 : option table.

Lemma loop_body_file_behind_table (st : run_state) (i : nat) (url : string) :
  file_behind_table file0 st ->
  file_behind_table file0 (loop_body net disk batch_size st i url).
Proof.
  intros Hinv. unfold loop_body.
  destruct (process net i url) as [r|e]; [|exact Hinv].
  assert (Happ : file_behind_table file0 (append_row st r)).
  { destruct Hinv as [H0 | (k & Hk & Hfile)]; [left; exact H0|].
    right. exists k. simpl. rewrite length_app. simpl. split; [lia|].
    rewrite firstn_app_le by lia. exact Hfile. }
  destruct (py_mod (Z.of_nat i) batch_size) as [m|e]; [|exact Happ].
  destruct (m =? 0); [|exact Happ].
  unfold to_csv. destruct (disk (writes (append_row st r))).
  - right. exists (length (details_df st ++ [r])).
    cbn [details_df csv_file append_row fst]. split.
    + rewrite length_app. simpl. lia.
    + rewrite firstn_all. reflexivity.
  - exact Happ.
Qed.

Lemma run_loop_file_behind_table (url_list : list string) :
  forall (i : nat) (st : run_state),
    file_behind_table file0 st ->
    file_behind_table file0 (run_loop net disk batch_size i url_list st).
Proof.
  induction url_list as [|u l IH]; intros i st Hinv; simpl.
  - exact Hinv.
  - apply IH, loop_body_file_behind_table, Hinv.
Qed.

Lemma loop_body_writes (st : run_state) (i : nat) (url : string) :
  writes (loop_body net disk batch_size st i url) = writes st
  \/ (py_mod (Z.of_nat i) batch_size = Ok 0
      /\ is_ok (process net i url) = true
      /\ writes (loop_body net disk batch_size st i url) = S (writes st)).
Proof.
  unfold loop_body. destruct (process net i url) as [r|e]; [|left; reflexivity].
  destruct (py_mod (Z.of_nat i) batch_size) as [m|e]; [|left; reflexivity].
  destruct (m =? 0) eqn:E; [|left; reflexivity].
  apply Z.eqb_eq in E. subst m. right. split; [reflexivity|]. split; [reflexivity|].
  unfold to_csv. destruct (disk _); reflexivity.
Qed.

End RunInvariants.

(** X13. On a run in which no write fails, whatever the network does:
    at every moment of the loop the destination holds either what it held
    before the run or a non-empty initial segment of the table accumulated
    so far, which is also an initial segment of the final table; the write
    after the loop then replaces it by the whole final table, which is
    empty when no listing succeeded. *)
Theorem file_is_initial_or_table_prefix
        (net : nat -> string -> result node) (disk : nat -> bool)
        (url_list : list string) (file0 : option table) (batch_size : Z) (n : nat) :
  (forall k, disk k = true) ->
  let st := state_after net disk n url_list file0 batch_size in
  let final := scrape_and_save_property_details net disk url_list file0 batch_size in
  (csv_file st = file0
   \/ exists k, (1 <= k <= length (details_df st))%nat
                /\ csv_file st = Some (firstn k (details_df st))
                /\ firstn k (details_df st)
                   = firstn k (successes net 0 url_list))
  /\ csv_file (fst final) = Some (successes net 0 url_list)
  /\ snd final = Ok (successes net 0 url_list)
  /\ (successes net 0 url_list = [] -> csv_file (fst final) = Some []).
Proof.
  intros Hdisk st final.
  assert (Hfinal : csv_file (fst final) = Some (successes net 0 url_list)
                   /\ snd final = Ok (successes net 0 url_list)).
  { unfold final. rewrite scrape_unfold, Hdisk. simpl.
    rewrite run_loop_details_df. simpl. auto. }
  destruct Hfinal as [Hfile_end Hret].
  split; [|split; [exact Hfile_end | split; [exact Hret|]]].
  - assert (Hinv : file_behind_table file0 st).
    { apply run_loop_file_behind_table. left. reflexivity. }
    destruct Hinv as [H0 | (k & Hk & Hfile)]; [left; exact H0|].
    right. exists k. split; [exact Hk|]. split; [exact Hfile|].
    assert (Hdf : details_df st = successes net 0 (firstn n url_list)).
    { unfold st, state_after. rewrite run_loop_details_df. reflexivity. }
    rewrite Hdf in Hk |- *.
    rewrite <- (firstn_skipn n url_list) at 2.
    rewrite successes_app, firstn_app_le by lia. reflexivity.
  - intros Hnone. rewrite Hfile_end, Hnone. reflexivity.
Qed.

Lemma file_is_initial_or_table_prefix_witness :
  csv_file (state_after Samples.net_flaky Samples.disk_ok 1 ["bad"]
              (Some [Samples.record_a]) 1)
  = Some [Samples.record_a]
  /\ csv_file (fst (scrape_and_save_property_details Samples.net_flaky
                      Samples.disk_ok ["bad"] (Some [Samples.record_a]) 1))
     = Some []
  /\ csv_file (state_after Samples.net_flaky Samples.disk_ok 2 ["a"; "bad"; "b"]
                 None 2)
     = Some [Samples.record_a].
Proof.
  destruct (file_is_initial_or_table_prefix Samples.net_flaky Samples.disk_ok
              ["bad"] (Some [Samples.record_a]) 1 1 (fun k => eq_refl))
    as (_ & _ & _ & Hempty).
  destruct (file_is_initial_or_table_prefix Samples.net_flaky Samples.disk_ok
              ["a"; "bad"; "b"] None 2 2 (fun k => eq_refl))
    as (Hloop & _).
  split; [vm_compute; reflexivity|]. split.
  - apply Hempty. vm_compute. reflexivity.
  - destruct Hloop as [H0 | (k & Hk & Hfile & _)].
    + vm_compute in H0. discriminate H0.
    + vm_compute. reflexivity.
Defined.

(** X14. With a batch size of zero the test [i % batch_size] raises in
    every iteration and the exception is dropped: no checkpoint is ever
    written, yet every record is kept, and the only write of the run is
    the one after the loop. *)
Theorem zero_batch_size_never_checkpoints
        (net : nat -> string -> result node) (disk : nat -> bool)
        (url_list : list string) (file0 : option table) :
  let st := run_loop net disk 0 0 url_list (init_state file0) in
  csv_file st = file0
  /\ writes st = 0%nat
  /\ details_df st = successes net 0 url_list
  /\ scrape_and_save_property_details net disk url_list file0 0
     = if disk 0%nat
       then ({| details_df := successes net 0 url_list;
                csv_file := Some (successes net 0 url_list);
                writes := 1 |}, Ok (successes net 0 url_list))
       else ({| details_df := successes net 0 url_list;
                csv_file := file0;
                writes := 1 |}, Raise OSError).
Proof.
  intros st.
  assert (Hloop : forall l i s,
             csv_file (run_loop net disk 0 i l s) = csv_file s
             /\ writes (run_loop net disk 0 i l s) = writes s).
  { induction l as [|u l IH]; intros i s; simpl; [auto|].
    destruct (IH (S i) (loop_body net disk 0 s i u)) as [-> ->].
    apply loop_body_no_checkpoint. discriminate. }
  destruct (Hloop url_list 0%nat (init_state file0)) as [Hfile Hwrites].
  assert (Hdf : details_df st = successes net 0 url_list)
    by (unfold st; rewrite run_loop_details_df; reflexivity).
  fold st in Hfile, Hwrites. simpl in Hfile, Hwrites.
  split; [exact Hfile|]. split; [exact Hwrites|]. split; [exact Hdf|].
  rewrite scrape_unfold. fold st. rewrite Hwrites, Hfile, Hdf. reflexivity.
Qed.

(** X15. The table only grows, and only at its end: the table after [n]
    listings is an initial segment of the table after any [m >= n]
    listings, and of the table at the end of the run. *)
Theorem table_grows_by_appending
        (net : nat -> string -> result node) (disk : nat -> bool)
        (url_list : list string) (file0 : option table) (batch_size : Z)
        (n m : nat) :
  (n <= m)%nat ->
  prefix_of (details_df (state_after net disk n url_list file0 batch_size))
            (details_df (state_after net disk m url_list file0 batch_size))
  /\ prefix_of (details_df (state_after net disk n url_list file0 batch_size))
               (details_df
                  (fst (scrape_and_save_property_details
                          net disk url_list file0 batch_size))).
Proof.
  intros Hnm.
  assert (Hdf : forall k, details_df (state_after net disk k url_list file0 batch_size)
                          = successes net 0 (firstn k url_list)).
  { intros k. unfold state_after. rewrite run_loop_details_df. reflexivity. }
  rewrite !Hdf, scrape_details_df. split.
  - exists (successes net (0 + length (firstn n (firstn m url_list)))
              (skipn n (firstn m url_list))).
    rewrite <- (firstn_skipn n (firstn m url_list)) at 1.
    rewrite successes_app, firstn_firstn.
    replace (Nat.min n m) with n by lia. reflexivity.
  - exists (successes net (0 + length (firstn n url_list)) (skipn n url_list)).
    rewrite <- (firstn_skipn n url_list) at 1.
    apply successes_app.
Qed.

Lemma table_grows_by_appending_witness :
  prefix_of
    (details_df (state_after Samples.net_flaky Samples.disk_ok 2
                   ["a"; "bad"; "b"] None 10))
    (details_df (state_after Samples.net_flaky Samples.disk_ok 3
                   ["a"; "bad"; "b"] None 10)).
Proof.
  apply (table_grows_by_appending Samples.net_flaky Samples.disk_ok
           ["a"; "bad"; "b"] None 10 2 3).
  lia.
Defined.

Lemma batches_started_step (b : Z) (n : nat) :
  1 <= b ->
  batches_started b n <= batches_started b (S n)
  /\ (Z.of_nat n mod b = 0 -> batches_started b n + 1 <= batches_started b (S n)).
Proof.
  intros Hb. unfold batches_started. split.
  - apply Z.div_le_mono; lia.
  - intros Hmod.
    pose proof (Z.div_mod (Z.of_nat n) b ltac:(lia)) as Hdm. rewrite Hmod in Hdm.
    replace (Z.of_nat (S n) + b - 1) with (Z.of_nat n / b * b + 1 * b) by lia.
    rewrite Z.div_add by lia. rewrite Z.div_mul by lia.
    replace (Z.of_nat n + b - 1) with (b - 1 + Z.of_nat n / b * b) by lia.
    rewrite Z.div_add by lia. rewrite (Z.div_small (b - 1) b) by lia. lia.
Qed.

(** X16. With a batch size of at least one, the loop writes at most one
    checkpoint per started batch of [batch_size] listings, and never more
    checkpoints than the table has rows. *)
Theorem at_most_one_checkpoint_per_batch
        (net : nat -> string -> result node) (disk : nat -> bool)
        (url_list : list string) (file0 : option table) (b : Z) (n : nat) :
  1 <= b ->
  (n <= length url_list)%nat ->
  let st := state_after net disk n url_list file0 b in
  Z.of_nat (writes st) <= batches_started b n
  /\ (writes st <= length (details_df st))%nat.
Proof.
  intros Hb. induction n as [|n IH]; intros Hn st.
  - unfold st, state_after, batches_started. simpl. split; [|lia].
    apply Z.div_pos; lia.
  - destruct (nth_error url_list n) as [url|] eqn:Hurl;
      [|apply nth_error_None in Hurl; lia].
    unfold st. rewrite (state_after_S _ _ _ _ _ _ _ Hurl).
    destruct (IH ltac:(lia)) as [Hw Hrows].
    set (prev := state_after net disk n url_list file0 b) in *.
    destruct (batches_started_step b n Hb) as [Hmono Hhit].
    rewrite loop_body_details_df.
    destruct (loop_body_writes net disk b prev n url) as [-> | (Hmod & Hok & ->)].
    + split; [lia|]. rewrite length_app. lia.
    + rewrite (py_mod_pos _ _ Hb) in Hmod. injection Hmod as Hmod.
      destruct (process net n url) as [r|e]; [|discriminate Hok].
      rewrite length_app. simpl. split; [|lia].
      specialize (Hhit Hmod). lia.
Qed.

Lemma at_most_one_checkpoint_per_batch_witness :
  Z.of_nat (writes (state_after Samples.net_ok Samples.disk_ok 3
                      ["a"; "b"; "a"; "b"] None 2)) <= 2.
Proof.
  apply (at_most_one_checkpoint_per_batch Samples.net_ok Samples.disk_ok
           ["a"; "b"; "a"; "b"] None 2 3); [lia | simpl; lia].
Defined.

Lemma py_mod_opp_test (i b : Z) :
  match py_mod i (- b), py_mod i b with
  | Ok r, Ok r' => (r =? 0) = (r' =? 0)
  | Raise e, Raise e' => e = e'
  | _, _ => False
  end.
Proof.
  unfold py_mod. destruct (b =? 0) eqn:Eb.
  - apply Z.eqb_eq in Eb. subst b. reflexivity.
  - apply Z.eqb_neq in Eb.
    destruct (- b =? 0) eqn:Enb; [apply Z.eqb_eq in Enb; lia|].
    destruct (i mod b =? 0) eqn:E.
    + apply Z.eqb_eq in E. apply Z.eqb_eq.
      apply Z.mod_divide; [lia|]. apply Z.divide_opp_l.
      apply Z.mod_divide; [exact Eb | exact E].
    + apply Z.eqb_neq in E. apply Z.eqb_neq. intros H. apply E.
      apply Z.mod_divide; [exact Eb|].
      apply Z.divide_opp_l. rewrite <- (Z.opp_involutive b) at 1.
      apply Z.divide_opp_l. apply Z.divide_opp_l.
      apply Z.mod_divide; [lia | exact H].
Qed.

Lemma loop_body_opp (net : nat -> string -> result node) (disk : nat -> bool)
      (b : Z) (st : run_state) (i : nat) (url : string) :
  loop_body net disk (- b) st i url = loop_body net disk b st i url.
Proof.
  unfold loop_body. destruct (process net i url) as [r|e]; [|reflexivity].
  pose proof (py_mod_opp_test (Z.of_nat i) b) as H.
  destruct (py_mod (Z.of_nat i) (- b)) as [m|e];
    destruct (py_mod (Z.of_nat i) b) as [m'|e']; try contradiction.
  - rewrite H. reflexivity.
  - reflexivity.
Qed.

(** X17. Only the multiples of the batch size matter, not its sign: a
    run with batch size [-b] makes the same checkpoints, writes the same
    file and returns the same table as the run with batch size [b]. *)
Theorem negative_batch_size_same_run
        (net : nat -> string -> result node) (disk : nat -> bool)
        (url_list : list string) (file0 : option table) (b : Z) :
  scrape_and_save_property_details net disk url_list file0 (- b)
  = scrape_and_save_property_details net disk url_list file0 b
  /\ forall n,
       state_after net disk n url_list file0 (- b)
       = state_after net disk n url_list file0 b.
Proof.
  assert (Hloop : forall l i st,
             run_loop net disk (- b) i l st = run_loop net disk b i l st).
  { induction l as [|u l IH]; intros i st; simpl; [reflexivity|].
    rewrite loop_body_opp. apply IH. }
  split.
  - unfold scrape_and_save_property_details. rewrite Hloop. reflexivity.
  - intros n. unfold state_after. apply Hloop.
Qed.

(** X18. A checkpoint is tied to the listing at its index: when the
    listings at the multiples of the batch size all fail, the loop writes
    nothing at all, however many other listings succeed, and the file
    stays as it was until the write after the loop. *)
Theorem failed_listing_forfeits_checkpoint
        (net : nat -> string -> result node) (disk : nat -> bool)
        (url_list : list string) (file0 : option table) (b : Z) :
  1 <= b ->
  (forall i url,
      nth_error url_list i = Some url ->
      Z.of_nat i mod b = 0 ->
      is_ok (process net i url) = false) ->
  let st := run_loop net disk b 0 url_list (init_state file0) in
  writes st = 0%nat
  /\ csv_file st = file0
  /\ details_df st = successes net 0 url_list.
Proof.
  intros Hb Hfail st.
  assert (Hloop : forall l i s,
             (forall j url,
                 nth_error l j = Some url ->
                 Z.of_nat (i + j) mod b = 0 ->
                 is_ok (process net (i + j) url) = false) ->
             writes (run_loop net disk b i l s) = writes s
             /\ csv_file (run_loop net disk b i l s) = csv_file s).
  { induction l as [|u l IH]; intros i s Hl; simpl; [auto|].
    assert (Hstep : writes (loop_body net disk b s i u) = writes s
                    /\ csv_file (loop_body net disk b s i u) = csv_file s).
    { destruct (Z.of_nat i mod b =? 0) eqn:E.
      - apply Z.eqb_eq in E.
        pose proof (Hl 0%nat u eq_refl) as H0. rewrite Nat.add_0_r in H0.
        specialize (H0 E).
        destruct (process net i u) as [r|e] eqn:Hp; [discriminate H0|].
        rewrite (loop_body_raise _ _ _ _ _ _ _ Hp). auto.
      - apply Z.eqb_neq in E.
        destruct (loop_body_no_checkpoint net disk b s i u) as [Hc Hw]; [|auto].
        rewrite (py_mod_pos _ _ Hb). intros H. injection H as H. contradiction. }
    destruct Hstep as [Hw Hc]. rewrite <- Hw, <- Hc. apply IH.
    intros j url Hj. replace (S i + j)%nat with (i + S j)%nat by lia.
    apply Hl. exact Hj. }
  destruct (Hloop url_list 0%nat (init_state file0) Hfail) as [Hw Hc].
  split; [exact Hw|]. split; [exact Hc|].
  unfold st. rewrite run_loop_details_df. reflexivity.
Qed.

Lemma failed_listing_forfeits_checkpoint_witness :
  let st := run_loop Samples.net_flaky Samples.disk_ok 2 0
              ["bad"; "a"; "nopoi"; "b"] (init_state None) in
  writes st = 0%nat /\ csv_file st = None
  /\ details_df st = [Samples.record_a; Samples.record_b].
Proof.
  destruct (failed_listing_forfeits_checkpoint Samples.net_flaky Samples.disk_ok
              ["bad"; "a"; "nopoi"; "b"] None 2 ltac:(lia)) as (Hw & Hc & Hdf).
  - intros [|[|[|[|i]]]] url Hi Hmod; simpl in Hi;
      try (injection Hi as <-); try (vm_compute; reflexivity);
      try (vm_compute in Hmod; discriminate Hmod).
    destruct i; discriminate Hi.
  - cbv zeta. split; [exact Hw|]. split; [exact Hc|].
    rewrite Hdf. vm_compute. reflexivity.
Defined.
